(** * ValuePredict/vp_report.py: the report pipeline of [ValuePredictReport]

    A shallow embedding of the class [ValuePredictReport] and of the few
    Python, pandas, matplotlib and os.path primitives it calls, followed by
    the properties of the report pipeline.

    The training engine (AutoGluon), the explainer (shap), the CSV reader and
    the Markdown renderer are external collaborators: their answers are the
    fields of a record [World], one record per call of the pipeline, and every
    one of them may raise. *)

From Stdlib Require Import String Ascii List ZArith Lia Bool DecimalString.
From stdpp Require Import gmap strings.
Import ListNotations.
Open Scope string_scope.

(** ** Python primitives *)

Module Py.

(** The exceptions that leave the methods of the class. [KeyError] comes from
    pandas indexing, [StopIteration] from [next] on an exhausted generator,
    [OSError] from a file that cannot be written; [Raised] is any exception
    an external collaborator raises, with its stage. *)
Inductive exception : Type :=
| KeyError (key : string)
| StopIteration
| OSError (path : string)
| Raised (stage : string).

Inductive result (A : Type) : Type :=
| Ok (a : A)
| Err (e : exception).
Arguments Ok {A} a.
Arguments Err {A} e.

Definition is_ok {A} (r : result A) : bool :=
  match r with Ok _ => true | Err _ => false end.

Definition newline : string := String "010"%char EmptyString.

(** [str(n)] for the non-negative integers [len] returns. *)
Definition str (n : nat) : string := NilEmpty.string_of_uint (Nat.to_uint n).

(** [sep.join(l)] *)
Definition join (sep : string) (l : list string) : string := String.concat sep l.

(** [sub in s] on strings: [sub] occurs in [s] at some position. *)
Fixpoint str_in (sub s : string) : bool :=
  String.prefix sub s ||
  match s with
  | EmptyString => false
  | String _ rest => str_in sub rest
  end.

(** [x in l] on a list of strings (comparison by [==]). *)
Definition list_in (x : string) (l : list string) : bool :=
  existsb (String.eqb x) l.

(** [l[:n]]: a negative stop counts from the end, and stops clamp to the list. *)
Definition slice_to {A} (n : Z) (l : list A) : list A :=
  if (n <? 0)%Z
  then firstn (Z.to_nat (Z.of_nat (length l) + n)) l
  else firstn (Z.to_nat n) l.

(** [l.append(x)] *)
Definition append {A} (l : list A) (x : A) : list A := (l ++ [x])%list.

(** [next(g)] on a generator that yields the elements of [g] in order. *)
Definition next {A} (g : list A) : result A :=
  match g with
  | [] => Err StopIteration
  | x :: _ => Ok x
  end.

(** [os.path.join(a, b)] of posixpath, for two components. *)
Definition startswith_sep (b : string) : bool :=
  match b with
  | String "/"%char _ => true
  | _ => false
  end.

Fixpoint endswith_sep (a : string) : bool :=
  match a with
  | EmptyString => false
  | String c EmptyString => Ascii.eqb c "/"%char
  | String _ rest => endswith_sep rest
  end.

Definition os_path_join (a b : string) : string :=
  if startswith_sep b then b
  else if (String.eqb a "" || endswith_sep a)%bool then a ++ b
  else a ++ "/" ++ b.

End Py.
Import Py.

(** ** pandas: the part of DataFrame the class uses *)

Module Pd.

(** A row carries its index label and one cell per column. Cells are kept as
    text: no claim reads a number out of a table. For the table [read_csv]
    returns, the labels are the row numbers, which the class never reads. *)
Record Row : Type := { name : string; cells : list string }.

Record DataFrame : Type := { columns : list string; rows : list Row }.

Definition Series : Type := list (string * string).

(** [len(df)] *)
Definition len (df : DataFrame) : nat := length (rows df).

(** [df.index.tolist()] *)
Definition index_tolist (df : DataFrame) : list string := map name (rows df).

(** [df.head(n)] is [df.iloc[:n]]. *)
Definition head (n : Z) (df : DataFrame) : DataFrame :=
  {| columns := columns df; rows := slice_to n (rows df) |}.

Fixpoint cell_of (col : string) (cols : list string) (cs : list string) : string :=
  match cols, cs with
  | c :: cols', x :: cs' => if String.eqb c col then x else cell_of col cols' cs'
  | _, _ => ""
  end.

(** [df[col]]: the column as a Series, [KeyError] when there is no such column. *)
Definition getitem (df : DataFrame) (col : string) : result Series :=
  if list_in col (columns df)
  then Ok (map (fun r => (name r, cell_of col (columns df) (cells r))) (rows df))
  else Err (KeyError col).

Fixpoint drop_cells (col : string) (cols : list string) (cs : list string) : list string :=
  match cols, cs with
  | c :: cols', x :: cs' =>
      if String.eqb c col then drop_cells col cols' cs' else x :: drop_cells col cols' cs'
  | _, _ => []
  end.

(** [df.drop(columns=[col])]: every column of that name goes, [KeyError] when
    there is none. *)
Definition drop (df : DataFrame) (col : string) : result DataFrame :=
  if list_in col (columns df)
  then Ok {| columns := List.filter (fun c => negb (String.eqb c col)) (columns df);
             rows := map (fun r => {| name := name r;
                                      cells := drop_cells col (columns df) (cells r) |})
                         (rows df) |}
  else Err (KeyError col).

End Pd.
Import Pd.

(** ** The feature recommender *)

(** [recommend_features(self, feature_importance_df, top_k=30)]; [self] is not
    read. *)
Definition default_top_k : Z := 30.

Definition recommend_features (feature_importance_df : DataFrame) (top_k : Z)
  : list string :=
  let importance_top := index_tolist (head top_k feature_importance_df) in
  importance_top.

(** ** The external collaborators and the observable state *)

Section Pipeline.

(** What the training engine and the explainer hand around is opaque to the
    class: a trained sub-model, the transformed input matrix and its target
    column, an explainer, and the attribution matrix. *)
Context {Model Matrix Target Explainer Attribution : Type}.

(** The object [TabularPredictor(...).fit(...)] returns. *)
Record Predictor : Type := {
  leaderboard : DataFrame -> result DataFrame;
  feature_importance : DataFrame -> result DataFrame;
  get_features : result (list string);
  load_data_internal : string -> result (Matrix * Target);
  model_names : result (list string);
  load_model : string -> result Model
}.

(** The answers of the environment during one call. [writable path] is
    whether a file can be created at [path] and filled; when it is a raise,
    [opened_before_raise path] tells whether [open] had already returned, so
    that it is the write that raised. [to_markdown df index] is
    [df.to_markdown(index=index)]. *)
Record World : Type := {
  read_csv : string -> result DataFrame;
  fit : string -> string -> string -> DataFrame -> result Predictor;
  TreeExplainer : Model -> result Explainer;
  shap_values : Explainer -> Matrix -> result Attribution;
  summary_plot : Attribution -> Matrix -> option string -> result unit;
  writable : string -> result unit;
  opened_before_raise : string -> bool;
  to_markdown : DataFrame -> bool -> result string
}.

(** One call of [shap.summary_plot] on the current figure. *)
Record Drawing : Type := {
  drawn_values : Attribution;
  drawn_features : Matrix;
  drawn_type : option string
}.

Inductive File : Type :=
| TextFile (content : string)
| PngFile (figure : list Drawing).

Inductive Event : Type :=
| Printed (line : string)
| Fitted (target path metric : string) (data : DataFrame)
| Saved (path : string)
| Written (path : string).

(** The files, matplotlib's current figure, and what happened so far (oldest
    first). *)
Record IO : Type := {
  files : gmap string File;
  gcf : list Drawing;
  log : list Event
}.

(** *** State and exceptions

    A raise stops the computation and keeps the state reached: Python rolls
    nothing back. *)
Definition M (S A : Type) : Type := S -> result A * S.

Definition ret {S A} (a : A) : M S A := fun s => (Ok a, s).

Definition bind {S A B} (m : M S A) (k : A -> M S B) : M S B :=
  fun s =>
    match m s with
    | (Ok a, s') => k a s'
    | (Err e, s') => (Err e, s')
    end.

Definition call {S A} (r : result A) : M S A := fun s => (r, s).

Definition get {S} : M S S := fun s => (Ok s, s).

Definition modify {S} (f : S -> S) : M S unit := fun s => (Ok tt, f s).

Definition set_files (f : gmap string File) (io : IO) : IO :=
  {| files := f; gcf := gcf io; log := log io |}.

Definition set_gcf (g : list Drawing) (io : IO) : IO :=
  {| files := files io; gcf := g; log := log io |}.

Definition log_event (e : Event) (io : IO) : IO :=
  {| files := files io; gcf := gcf io; log := log io ++ [e] |}.

End Pipeline.

Arguments Predictor : clear implicits.
Arguments World : clear implicits.
Arguments Drawing : clear implicits.
Arguments File : clear implicits.
Arguments IO : clear implicits.

Declare Scope py_scope.
Delimit Scope py_scope with py.
Notation "x <- c ;; k" := (bind c (fun x => k))
  (at level 100, c at next level, right associativity) : py_scope.
Notation "c ;; k" := (bind c (fun _ => k))
  (at level 100, right associativity) : py_scope.
Open Scope py_scope.

(** ** The class [ValuePredictReport] *)

Record ValuePredictReport : Type := {
  train_data : DataFrame;
  id_col : string;
  label : string;
  report_folder : string;
  model_path : string;
  vp_report_path : string;
  eval_metric : string;
  train_id : Series;
  original_features : list string;
  vp_report_lines : list string
}.

(** [self.vp_report_lines.extend(lines)], the one assignment to an attribute
    after construction. *)
Definition extend_vp_report_lines (lines : list string) (self : ValuePredictReport)
  : ValuePredictReport :=
  {| train_data := train_data self;
     id_col := id_col self;
     label := label self;
     report_folder := report_folder self;
     model_path := model_path self;
     vp_report_path := vp_report_path self;
     eval_metric := eval_metric self;
     train_id := train_id self;
     original_features := original_features self;
     vp_report_lines := vp_report_lines self ++ lines |}.

Section Methods.

Context {Model Matrix Target Explainer Attribution : Type}.

Abbreviation World := (World Model Matrix Target Explainer Attribution).
Abbreviation Predictor := (Predictor Model Matrix Target).
Abbreviation IO := (IO Matrix Attribution).
Abbreviation Drawing := (Drawing Matrix Attribution).

(** A method runs on the instance and the observable state together. *)
Definition Method (A : Type) : Type := M (ValuePredictReport * IO) A.

Definition on_io {A} (m : M IO A) : Method A :=
  fun s =>
    match m (snd s) with
    | (r, io') => (r, (fst s, io'))
    end.

Definition get_self : Method ValuePredictReport :=
  fun s => (Ok (fst s), s).

Definition set_self (f : ValuePredictReport -> ValuePredictReport) : Method unit :=
  fun s => (Ok tt, (f (fst s), snd s)).

(** *** Library calls with an effect *)

Definition print (line : string) : M IO unit := modify (log_event (Printed line)).

(** [TabularPredictor(label=..., path=..., eval_metric=...).fit(data)] *)
Definition TabularPredictor_fit (w : World) (target path metric : string)
           (data : DataFrame) : M IO Predictor :=
  modify (log_event (Fitted target path metric data)) ;;
  call (fit w target path metric data).

(** [plt.figure()]: a new, empty current figure. *)
Definition plt_figure : M IO unit := modify (set_gcf []).

(** [shap.summary_plot(values, X, plot_type=..., show=False)] draws on the
    current figure. *)
Definition shap_summary_plot (w : World) (values : Attribution) (X : Matrix)
           (plot_type : option string) : M IO unit :=
  call (summary_plot w values X plot_type) ;;
  modify (fun io =>
            set_gcf (gcf io ++ [{| drawn_values := values;
                                   drawn_features := X;
                                   drawn_type := plot_type |}]) io).

Definition plt_tight_layout : M IO unit := ret tt.

(** [plt.savefig(path)] writes the current figure. *)
Definition plt_savefig (w : World) (path : string) : M IO unit :=
  call (writable w path) ;;
  modify (fun io => log_event (Saved path)
                      (set_files (<[path := PngFile (gcf io)]> (files io)) io)).

(** [open(path, "w")]: it raises and nothing has happened, or it returns and
    the file is there, empty. *)
Definition truncate (path : string) (io : IO) : IO :=
  set_files (<[path := TextFile ""]> (files io)) io.

Definition open_w (w : World) (path : string) : M IO unit :=
  match writable w path with
  | Ok _ => modify (truncate path)
  | Err e => if opened_before_raise w path then modify (truncate path) else call (Err e)
  end.

(** [f.write(content)] on the file just opened: it raises (the text can hold
    characters the locale's encoding lacks) and the file stays empty, or the
    whole content is in the file. *)
Definition f_write (w : World) (path content : string) : M IO unit :=
  call (writable w path) ;;
  modify (fun io => log_event (Written path)
                      (set_files (<[path := TextFile content]> (files io)) io)).

(** [with open(path, "w") as f: f.write(content)] *)
Definition open_write (w : World) (path content : string) : M IO unit :=
  open_w w path ;;
  f_write w path content.

(** *** [__init__] *)
Definition __init__ (w : World) (train_data_path id_col label report_folder : string)
  : M IO ValuePredictReport :=
  train_data <- call (read_csv w train_data_path) ;;
  let model_path := os_path_join report_folder "models" in
  let vp_report_path := os_path_join report_folder "vp_report.md" in
  let eval_metric := "mean_squared_error" in
  train_id <- call (getitem train_data id_col) ;;
  train_data <- call (drop train_data id_col) ;;
  let original_features :=
    List.filter (fun col => negb (String.eqb col label)) (columns train_data) in
  ret {| train_data := train_data;
         id_col := id_col;
         label := label;
         report_folder := report_folder;
         model_path := model_path;
         vp_report_path := vp_report_path;
         eval_metric := eval_metric;
         train_id := train_id;
         original_features := original_features;
         vp_report_lines := [] |}.

(** *** [save_report] *)
Definition save_report (w : World) : Method unit :=
  self <- get_self ;;
  on_io (open_write w (vp_report_path self) (join newline (vp_report_lines self))).

(** *** [generate_basic_part] *)

(** The list display of [report_lines], in the order Python evaluates its
    elements; the two tables are rendered while the list is built. *)
Definition report_lines_literal (self : ValuePredictReport)
           (importance_table leaderboard_table : string)
           (shap_summary_plot_path shap_bar_plot_path : string)
           (used_features unused_features : list string) : list string :=
  [ "# AutoML 預測任務報告";
    "";
    "## 🎯 預測目標";
    "- 預測欄位：**" ++ label self ++ "**";
    "- 訓練資料筆數：" ++ str (len (train_data self));
    "- 原始特徵數量：" ++ str (length (original_features self));
    "";
    "## 特徵分析";
    "### Top 30 重要特徵";
    importance_table;
    "";
    "| 欄位 | 說明 |";
    "|------|------|";
    "| importance | 特徵重要性分數，表示該特徵對模型預測的影響程度 |";
    "| stddev | 特徵重要性的標準差，表示估計的不確定性 |";
    "| p_value | 統計顯著性檢驗的 p 值 |";
    "| n | 用於計算的重要樣本數 |";
    "| p99_high / p99_low | 99% 置信區間上下限 |";
    "";
    "> **置信區間說明**：範圍小表示估計精確；若不包含零，則具統計顯著性。";
    "";
    "### 🧠 SHAP 模型解釋（基於 LightGBM）";
    "#### 1. SHAP Summary Plot（點圖）";
    "![summary](" ++ shap_summary_plot_path ++ ")";
    "";
    "#### 2. SHAP Feature Importance（條狀圖）";
    "![bar](" ++ shap_bar_plot_path ++ ")";
    "";
    "> SHAP 可視化幫助了解每個特徵對預測的正負影響與重要程度。";
    "";
    "## Baseline 模型表現";
    "### 模型使用特徵";
    "```";
    join ", " used_features;
    "```";
    "";
    "### 模型未使用特徵";
    "```";
    join ", " unused_features;
    "```";
    "";
    "### 模型 Baseline Leaderboard";
    leaderboard_table;
    "";
    "| 欄位 | 說明 |";
    "|------|------|";
    "| model | 模型名稱 |";
    "| score_test / score_val | 負的 RMSE（越高越好） |";
    "| pred_time_* / fit_time | 預測與訓練耗時（秒） |";
    "| stack_level | 模型堆疊層級 |";
    "| can_infer | 是否可用於推論 |" ].

(** [unused_features = [f for f in self.original_features if f not in used_features]] *)
Definition unused_of (original_features used_features : list string) : list string :=
  List.filter (fun f => negb (list_in f used_features)) original_features.

(** [next(m for m in predictor.model_names() if "LightGBM" in m)] on the
    names already returned. *)
Definition select_lightgbm (names : list string) : result string :=
  next (List.filter (fun m => str_in "LightGBM" m) names).

Definition generate_basic_part (w : World) : Method (list string * list string) :=
  self <- get_self ;;
  predictor <- on_io (TabularPredictor_fit w (label self) (model_path self)
                                           (eval_metric self) (train_data self)) ;;
  leaderboard_df <- call (leaderboard predictor (train_data self)) ;;
  feature_importance_df <- call (feature_importance predictor (train_data self)) ;;
  used_features <- call (get_features predictor) ;;
  let unused_features := unused_of (original_features self) used_features in
  X_y <- call (load_data_internal predictor "train") ;;
  let X := fst X_y in
  names <- call (model_names predictor) ;;
  lightgbm_model_name <- call (select_lightgbm names) ;;
  on_io (print ("使用 SHAP 的模型：" ++ lightgbm_model_name)) ;;
  lgbm_model <- call (load_model predictor lightgbm_model_name) ;;
  explainer <- call (TreeExplainer w lgbm_model) ;;
  shap_values <- call (shap_values w explainer X) ;;
  let shap_summary_plot_path := os_path_join (report_folder self) "shap_summary_plot.png" in
  on_io plt_figure ;;
  on_io (shap_summary_plot w shap_values X None) ;;
  on_io plt_tight_layout ;;
  on_io (plt_savefig w shap_summary_plot_path) ;;
  let shap_bar_plot_path := os_path_join (report_folder self) "shap_bar_plot.png" in
  on_io plt_figure ;;
  on_io (shap_summary_plot w shap_values X (Some "bar")) ;;
  on_io plt_tight_layout ;;
  on_io (plt_savefig w shap_bar_plot_path) ;;
  importance_table <- call (to_markdown w (head 30 feature_importance_df) true) ;;
  leaderboard_table <- call (to_markdown w leaderboard_df false) ;;
  let report_lines :=
    report_lines_literal self importance_table leaderboard_table
                         shap_summary_plot_path shap_bar_plot_path
                         used_features unused_features in
  let recommended_features := recommend_features feature_importance_df default_top_k in
  let report_lines := append report_lines "## 推薦特徵" in
  let report_lines :=
    append report_lines ("- 推薦特徵數量：" ++ str (length recommended_features)) in
  let report_lines := append report_lines "- 推薦特徵：" in
  let report_lines := append report_lines "  ```" in
  let report_lines := append report_lines ("  " ++ join ", " recommended_features) in
  let report_lines := append report_lines "  ```" in
  ret (report_lines, recommended_features).

(** *** [generate_report] *)
Definition generate_report (w : World) : Method unit :=
  on_io (print "Generating Report...") ;;
  basic <- generate_basic_part w ;;
  let report_lines := fst basic in
  set_self (extend_vp_report_lines report_lines) ;;
  save_report w ;;
  self <- get_self ;;
  on_io (print ("Report Saved at: " ++ vp_report_path self)).

End Methods.

(** ** The specification's vocabulary *)

Module Spec.

(** FeatureSet: the column names of the loaded table that are neither the
    identifier nor the label, in table order. *)
Definition FeatureSet (id_col label : string) (table : DataFrame) : list string :=
  List.filter (fun c => negb (String.eqb c id_col) && negb (String.eqb c label))
              (columns table).

(** [sub] occurs in [s]. *)
Definition Substring (sub s : string) : Prop :=
  exists before after, s = before ++ sub ++ after.

(** The seven parts of the report document, in the order of the
    specification. *)
Definition code_block (body : string) : list string := ["```"; body; "```"].

Definition title_and_target (label : string) : list string :=
  [ "# AutoML 預測任務報告";
    "";
    "## 🎯 預測目標";
    "- 預測欄位：**" ++ label ++ "**" ].

Definition statistics (n_rows n_features : nat) : list string :=
  [ "- 訓練資料筆數：" ++ str n_rows;
    "- 原始特徵數量：" ++ str n_features;
    "" ].

Definition importance_glossary : list string :=
  [ "| 欄位 | 說明 |";
    "|------|------|";
    "| importance | 特徵重要性分數，表示該特徵對模型預測的影響程度 |";
    "| stddev | 特徵重要性的標準差，表示估計的不確定性 |";
    "| p_value | 統計顯著性檢驗的 p 值 |";
    "| n | 用於計算的重要樣本數 |";
    "| p99_high / p99_low | 99% 置信區間上下限 |";
    "";
    "> **置信區間說明**：範圍小表示估計精確；若不包含零，則具統計顯著性。";
    "" ].

Definition importance (top30_table : string) : list string :=
  ([ "## 特徵分析"; "### Top 30 重要特徵"; top30_table; "" ] ++ importance_glossary)%list.

Definition shap_explanation (summary_path bar_path : string) : list string :=
  [ "### 🧠 SHAP 模型解釋（基於 LightGBM）";
    "#### 1. SHAP Summary Plot（點圖）";
    "![summary](" ++ summary_path ++ ")";
    "";
    "#### 2. SHAP Feature Importance（條狀圖）";
    "![bar](" ++ bar_path ++ ")";
    "";
    "> SHAP 可視化幫助了解每個特徵對預測的正負影響與重要程度。";
    "" ].

Definition used_and_unused (used unused : list string) : list string :=
  ([ "## Baseline 模型表現"; "### 模型使用特徵" ] ++ code_block (join ", " used)
   ++ [ ""; "### 模型未使用特徵" ] ++ code_block (join ", " unused)
   ++ [ "" ])%list.

Definition leaderboard_glossary : list string :=
  [ "| 欄位 | 說明 |";
    "|------|------|";
    "| model | 模型名稱 |";
    "| score_test / score_val | 負的 RMSE（越高越好） |";
    "| pred_time_* / fit_time | 預測與訓練耗時（秒） |";
    "| stack_level | 模型堆疊層級 |";
    "| can_infer | 是否可用於推論 |" ].

Definition leaderboard_part (table : string) : list string :=
  ([ "### 模型 Baseline Leaderboard"; table; "" ] ++ leaderboard_glossary)%list.

Definition recommendation (recommended : list string) : list string :=
  [ "## 推薦特徵";
    "- 推薦特徵數量：" ++ str (length recommended);
    "- 推薦特徵：";
    "  ```";
    "  " ++ join ", " recommended;
    "  ```" ].

Definition document (label : string) (n_rows n_features : nat)
           (top30_table summary_path bar_path : string)
           (used unused : list string) (leaderboard_table : string)
           (recommended : list string) : list string :=
  (title_and_target label
   ++ statistics n_rows n_features
   ++ importance top30_table
   ++ shap_explanation summary_path bar_path
   ++ used_and_unused used unused
   ++ leaderboard_part leaderboard_table
   ++ recommendation recommended)%list.

End Spec.

(** The two image paths [generate_basic_part] computes. *)
Definition summary_plot_path (self : ValuePredictReport) : string :=
  os_path_join (report_folder self) "shap_summary_plot.png".

Definition bar_plot_path (self : ValuePredictReport) : string :=
  os_path_join (report_folder self) "shap_bar_plot.png".

(** ** Callers of an instance *)

Section Callers.

Context {Model Matrix Target Explainer Attribution : Type}.

Abbreviation World' := (World Model Matrix Target Explainer Attribution).
Abbreviation IO' := (IO Matrix Attribution).

(** The methods a caller can invoke on an instance once it exists. *)
Inductive Call : Type :=
| CallGenerateReport
| CallSaveReport
| CallGenerateBasicPart
| CallRecommendFeatures (feature_importance_df : DataFrame) (top_k : Z).

Definition run_call (w : World') (c : Call) : Method unit :=
  match c with
  | CallGenerateReport => generate_report w
  | CallSaveReport => save_report w
  | CallGenerateBasicPart => generate_basic_part w ;; ret tt
  | CallRecommendFeatures df top_k => ret (recommend_features df top_k) ;; ret tt
  end.

(** A caller's history: calls one after the other, each answered by the
    environment of its time, whether or not the one before raised. *)
Fixpoint run_calls (cs : list (World' * Call)) (s : ValuePredictReport * IO')
  : ValuePredictReport * IO' :=
  match cs with
  | [] => s
  | (w, c) :: cs' => run_calls cs' (snd (run_call w c s))
  end.

(** [generate_report] called once per environment of the list, stopping at the
    first raise. *)
Fixpoint generate_report_each (ws : list World') : Method unit :=
  match ws with
  | [] => ret tt
  | w :: ws' => generate_report w ;; generate_report_each ws'
  end.

(** The lines one call of [generate_basic_part] returns for an instance, read
    off a run on a state without files ([[]] when the call raises). *)
Definition generated_lines (w : World') (self : ValuePredictReport) : list string :=
  match fst (generate_basic_part w (self, {| files := ∅; gcf := []; log := [] |})) with
  | Ok basic => fst basic
  | Err _ => []
  end.


Definition is_fitted (e : Event) : bool :=
  match e with
  | Fitted _ _ _ _ => true
  | _ => false
  end.

(** [lines] is the report document of one run on [self] in the environment
    [w]: the seven parts in order, filled with the artifacts of that run. *)
Definition is_report_document (w : World') (self : ValuePredictReport)
           (lines : list string) : Prop :=
  exists predictor leaderboard_df feature_importance_df used_features top30 board,
    fit w (label self) (model_path self) (eval_metric self) (train_data self) = Ok predictor
    /\ leaderboard predictor (train_data self) = Ok leaderboard_df
    /\ feature_importance predictor (train_data self) = Ok feature_importance_df
    /\ get_features predictor = Ok used_features
    /\ to_markdown w (head 30 feature_importance_df) true = Ok top30
    /\ to_markdown w leaderboard_df false = Ok board
    /\ lines = Spec.document (label self) (len (train_data self))
                             (length (original_features self))
                             top30 (summary_plot_path self) (bar_plot_path self)
                             used_features
                             (unused_of (original_features self) used_features)
                             board
                             (recommend_features feature_importance_df default_top_k).

End Callers.

(** ** References to DataFrames

    pandas objects live on the interpreter's heap and are reached by
    reference; [head] allocates the object it returns. *)

Module Heap.

Definition alloc (df : DataFrame) : M (gmap nat DataFrame) nat :=
  fun h => let r := fresh (dom h) in (Ok r, <[r := df]> h).

Definition deref (r : nat) : M (gmap nat DataFrame) DataFrame :=
  fun h =>
    match h !! r with
    | Some df => (Ok df, h)
    | None => (Err (Raised "dangling reference"), h)
    end.

Definition df_head (r : nat) (n : Z) : M (gmap nat DataFrame) nat :=
  df <- deref r ;; alloc (head n df).

Definition df_index_tolist (r : nat) : M (gmap nat DataFrame) (list string) :=
  df <- deref r ;; ret (index_tolist df).

(** [recommend_features] on a reference to the importance table. *)
Definition recommend_features_ref (feature_importance_df : nat) (top_k : Z)
  : M (gmap nat DataFrame) (list string) :=
  top <- df_head feature_importance_df top_k ;;
  importance_top <- df_index_tolist top ;;
  ret importance_top.

End Heap.



(** ** A small run: four columns, two rows, four trained sub-models *)

Module Example.

Definition table : DataFrame :=
  {| columns := ["id"; "age"; "signup"; "y"];
     rows := [ {| name := "0"; cells := ["u1"; "31"; "2021-03-01"; "1.5"] |};
               {| name := "1"; cells := ["u2"; "47"; "2020-11-17"; "0.5"] |} ] |}.

Definition importance_table : DataFrame :=
  {| columns := ["importance"; "stddev"; "p_value"; "n"; "p99_high"; "p99_low"];
     rows := [ {| name := "signup"; cells := ["0.9"; "0.1"; "0.01"; "5"; "1.2"; "0.6"] |};
               {| name := "age"; cells := ["0.2"; "0.1"; "0.20"; "5"; "0.5"; "-0.1"] |} ] |}.

Definition leaderboard_table : DataFrame :=
  {| columns := ["model"; "score_test"; "score_val"];
     rows := [ {| name := "0"; cells := ["WeightedEnsemble_L2"; "-0.1"; "-0.2"] |};
               {| name := "1"; cells := ["LightGBMXT"; "-0.2"; "-0.3"] |} ] |}.

(** An importance table with ten features only. *)
Definition ten_features : DataFrame :=
  {| columns := ["importance"];
     rows := map (fun f => {| name := f; cells := ["0.1"] |})
                 ["f1"; "f2"; "f3"; "f4"; "f5"; "f6"; "f7"; "f8"; "f9"; "f10"] |}.

Definition sub_models : list string :=
  ["KNeighborsUnif"; "LightGBMXT"; "LightGBM"; "WeightedEnsemble_L2"].

Definition X : list (list Z) := [[31; 3]; [47; 11]]%Z.

Definition attributions : list (list Z) := [[1; -2]; [-1; 2]]%Z.

(** The engine derives a column from the date column and reports it as used. *)
Definition used : list string := ["age"; "signup"; "signup.year"].

Definition predictor (names : list string)
  : Predictor string (list (list Z)) (list string) :=
  {| leaderboard := fun _ => Ok leaderboard_table;
     feature_importance := fun _ => Ok importance_table;
     get_features := Ok used;
     load_data_internal := fun _ => Ok (X, ["1.5"; "0.5"]);
     model_names := Ok names;
     load_model := fun m => Ok m |}.

(** Tables are rendered as their index labels, one per bar. *)
Definition world (names : list string)
  : World string (list (list Z)) (list string) string (list (list Z)) :=
  {| read_csv := fun _ => Ok table;
     fit := fun _ _ _ _ => Ok (predictor names);
     TreeExplainer := fun m => Ok m;
     shap_values := fun _ _ => Ok attributions;
     summary_plot := fun _ _ _ => Ok tt;
     writable := fun _ => Ok tt;
     opened_before_raise := fun _ => false;
     to_markdown := fun df _ => Ok (join "|" (index_tolist df)) |}.

Definition io0 : IO (list (list Z)) (list (list Z)) :=
  {| files := ∅; gcf := []; log := [] |}.

(** The instance [ValuePredictReport("train.csv", "id", "y", "out")] builds. *)
Definition instance : ValuePredictReport :=
  {| train_data :=
       {| columns := ["age"; "signup"; "y"];
          rows := [ {| name := "0"; cells := ["31"; "2021-03-01"; "1.5"] |};
                    {| name := "1"; cells := ["47"; "2020-11-17"; "0.5"] |} ] |};
     id_col := "id";
     label := "y";
     report_folder := "out";
     model_path := "out/models";
     vp_report_path := "out/vp_report.md";
     eval_metric := "mean_squared_error";
     train_id := [("0", "u1"); ("1", "u2")];
     original_features := ["age"; "signup"];
     vp_report_lines := [] |}.

(** One run of the pipeline on that instance, and what it returns. *)
Definition run_basic :=
  generate_basic_part (world sub_models) (instance, io0).

Definition basic : list string * list string :=
  match fst run_basic with
  | Ok b => b
  | Err _ => ([], [])
  end.

(** A store holding the importance table at address 0. *)
Definition store : gmap nat DataFrame := <[0 := importance_table]> ∅.

End Example.

(** ** Runs that stop on the way *)


Definition is_printed (e : Event) : bool :=
  match e with
  | Printed _ => true
  | _ => false
  end.


Module Faults.

(** The environment of [Example.world] in which drawing the bar chart raises. *)
Definition world_bar_fails
  : World string (list (list Z)) (list string) string (list (list Z)) :=
  {| read_csv := fun _ => Ok Example.table;
     fit := fun _ _ _ _ => Ok (Example.predictor Example.sub_models);
     TreeExplainer := fun m => Ok m;
     shap_values := fun _ _ => Ok Example.attributions;
     summary_plot := fun _ _ plot_type =>
                       match plot_type with
                       | Some _ => Err (Raised "summary_plot")
                       | None => Ok tt
                       end;
     writable := fun _ => Ok tt;
     opened_before_raise := fun _ => false;
     to_markdown := fun df _ => Ok (join "|" (index_tolist df)) |}.

(** The environment of [Example.world] in which the report file cannot be
    opened for writing. *)
Definition world_report_locked
  : World string (list (list Z)) (list string) string (list (list Z)) :=
  {| read_csv := fun _ => Ok Example.table;
     fit := fun _ _ _ _ => Ok (Example.predictor Example.sub_models);
     TreeExplainer := fun m => Ok m;
     shap_values := fun _ _ => Ok Example.attributions;
     summary_plot := fun _ _ _ => Ok tt;
     writable := fun path =>
                   if String.eqb path "out/vp_report.md"
                   then Err (OSError path) else Ok tt;
     opened_before_raise := fun _ => false;
     to_markdown := fun df _ => Ok (join "|" (index_tolist df)) |}.



End Faults.

(** * Properties *)

(** ** Python and pandas primitives *)

Lemma slice_to_count {A} (k : nat) (l : list A) :
  slice_to (Z.of_nat k) l = firstn k l.
Proof.
  unfold slice_to.
  destruct (Z.ltb_spec (Z.of_nat k) 0) as [Hneg | _]; [lia |].
  now rewrite Nat2Z.id.
Qed.

Lemma slice_to_negative {A} (n : Z) (l : list A) :
  (n < 0)%Z -> slice_to n l = firstn (length l - Z.to_nat (- n)) l.
Proof.
  intros Hn. unfold slice_to.
  destruct (Z.ltb_spec n 0) as [_ | Hge]; [| lia].
  f_equal. lia.
Qed.

Lemma firstn_min_length {A} (k : nat) (l : list A) :
  firstn (Nat.min k (length l)) l = firstn k l.
Proof.
  destruct (Nat.le_gt_cases k (length l)) as [Hle | Hgt].
  - now rewrite Nat.min_l.
  - rewrite Nat.min_r by lia.
    rewrite firstn_all. symmetry. apply firstn_all2. lia.
Qed.

Lemma index_tolist_head (k : nat) (df : DataFrame) :
  index_tolist (head (Z.of_nat k) df) = firstn k (index_tolist df).
Proof.
  unfold index_tolist, head; cbn [rows].
  rewrite slice_to_count. symmetry. apply firstn_map.
Qed.

Lemma list_in_In (x : string) (l : list string) :
  list_in x l = true <-> In x l.
Proof.
  unfold list_in. rewrite existsb_exists. split.
  - intros (y & Hy & Heq). apply String.eqb_eq in Heq. now subst.
  - intros Hx. exists x. split; [assumption | apply String.eqb_refl].
Qed.

Lemma list_in_not_In (x : string) (l : list string) :
  list_in x l = false <-> ~ In x l.
Proof.
  rewrite <- list_in_In. destruct (list_in x l); split; congruence.
Qed.

Lemma append_String (c : ascii) (a b : string) : String c a ++ b = String c (a ++ b).
Proof. reflexivity. Qed.

Lemma append_empty (b : string) : "" ++ b = b.
Proof. reflexivity. Qed.

Lemma prefix_app (a s : string) :
  String.prefix a s = true <-> exists b, s = a ++ b.
Proof.
  revert s. induction a as [| c a IH]; intros s.
  - split; [intros _; now exists s | intros _; now destruct s].
  - destruct s as [| d s]; cbn.
    + split; [discriminate | intros (b & Hb); rewrite append_String in Hb; discriminate].
    + destruct (Ascii.ascii_dec c d) as [-> | Hne].
      * rewrite IH. split; intros (b & Hb); exists b;
          rewrite append_String in *; congruence.
      * split; [discriminate |].
        intros (b & Hb). rewrite append_String in Hb. congruence.
Qed.

Lemma str_in_Substring (sub s : string) :
  str_in sub s = true <-> Spec.Substring sub s.
Proof.
  unfold Spec.Substring. induction s as [| c s IH]; cbn [str_in].
  - rewrite orb_false_r, prefix_app. split.
    + intros (b & Hb). now exists "", b.
    + intros (a & b & Hab). destruct a as [| d a].
      * now exists b.
      * rewrite append_String in Hab. discriminate.
  - rewrite orb_true_iff, prefix_app, IH. split.
    + intros [(b & Hb) | (a & b & Hab)].
      * now exists "", b.
      * exists (String c a), b. rewrite append_String. now rewrite Hab.
    + intros (a & b & Hab). destruct a as [| d a].
      * left. now exists b.
      * right. exists a, b. rewrite append_String in Hab. congruence.
Qed.

Lemma next_filter {A} (f : A -> bool) (l : list A) :
  match next (List.filter f l) with
  | Ok x => exists before after,
      l = (before ++ x :: after)%list /\ f x = true
      /\ Forall (fun y => f y = false) before
  | Err e => e = StopIteration /\ Forall (fun y => f y = false) l
  end.
Proof.
  induction l as [| y l IH]; cbn.
  - split; [reflexivity | constructor].
  - destruct (f y) eqn:Hy; cbn.
    + exists [], l. repeat split; [assumption | constructor].
    + destruct (next (List.filter f l)) as [x | e].
      * destruct IH as (before & after & -> & Hx & Hbefore).
        exists (y :: before), after. repeat split; [assumption | now constructor].
      * destruct IH as [-> Hall]. split; [reflexivity | now constructor].
Qed.

Lemma os_path_join_relative (a b : string) :
  startswith_sep b = false ->
  exists dir, forall b', startswith_sep b' = false -> os_path_join a b' = dir ++ b'.
Proof.
  intros _. unfold os_path_join.
  destruct (String.eqb a "" || endswith_sep a)%bool.
  - exists a. intros b' ->. reflexivity.
  - exists (a ++ "/"). intros b' ->.
    clear. induction a as [| c a IH]; [reflexivity |].
    change (String c (a ++ "/" ++ b') = String c ((a ++ "/") ++ b')).
    now rewrite IH.
Qed.

Lemma string_app_inv_head (d x y : string) : d ++ x = d ++ y -> x = y.
Proof.
  induction d as [| c d IH]; [trivial |].
  rewrite !append_String. intros H. apply IH. congruence.
Qed.

(** Two different file names under one folder are two different paths. *)
Lemma os_path_join_inj (folder x y : string) :
  startswith_sep x = false -> startswith_sep y = false ->
  os_path_join folder x = os_path_join folder y -> x = y.
Proof.
  intros Hx Hy. destruct (os_path_join_relative folder x Hx) as (dir & Hdir).
  rewrite (Hdir x Hx), (Hdir y Hy). apply string_app_inv_head.
Qed.

Lemma filter_twice {A} (f g : A -> bool) (l : list A) :
  List.filter g (List.filter f l) = List.filter (fun x => f x && g x) l.
Proof.
  induction l as [| x l IH]; cbn; [reflexivity |].
  destruct (f x); cbn; [destruct (g x) |]; now rewrite IH.
Qed.

Lemma heap_alloc_fresh (h : gmap nat DataFrame) : h !! fresh (dom h) = None.
Proof. apply not_elem_of_dom, is_fresh. Qed.

(** ** The instance and the pipeline *)

Section Properties.

Context {Model Matrix Target Explainer Attribution : Type}.

#[local] Arguments report_lines_literal : simpl never.
#[local] Arguments append : simpl never.
#[local] Arguments recommend_features : simpl never.
#[local] Arguments os_path_join : simpl never.
#[local] Arguments unused_of : simpl never.
#[local] Arguments select_lightgbm : simpl never.
#[local] Arguments head : simpl never.
#[local] Arguments getitem : simpl never.
#[local] Arguments drop : simpl never.
#[local] Arguments join : simpl never.

(** Unfold a method down to the answers of the environment it depends on. *)
Ltac run :=
  unfold run_call, generate_report, save_report, generate_basic_part, __init__,
    set_self, get_self, on_io, open_write, open_w, f_write, TabularPredictor_fit,
    print, plt_figure,
    shap_summary_plot, plt_tight_layout, plt_savefig, bind, call, modify, ret;
  cbn.

Ltac run_in H :=
  unfold run_call, generate_report, save_report, generate_basic_part, __init__,
    set_self, get_self, on_io, open_write, open_w, f_write, TabularPredictor_fit,
    print, plt_figure,
    shap_summary_plot, plt_tight_layout, plt_savefig, bind, call, modify, ret in H;
  cbn in H.

(** Split on the next answer the goal waits for. *)
Ltac step :=
  match goal with
  | |- context [match ?r with Ok _ => _ | Err _ => _ end] =>
      let H := fresh "Hcall" in destruct r eqn:H; cbn
  | |- context [opened_before_raise ?w ?p] =>
      let H := fresh "Hopen" in destruct (opened_before_raise w p) eqn:H; cbn
  end.

Ltac step_in H :=
  match type of H with
  | context [match ?r with Ok _ => _ | Err _ => _ end] =>
      let E := fresh "Hcall" in destruct r eqn:E; cbn in H
  end.

Lemma plot_paths_differ (self : ValuePredictReport) :
  summary_plot_path self <> bar_plot_path self.
Proof.
  intros H. apply os_path_join_inj in H; [discriminate | reflexivity | reflexivity].
Qed.



(** *** The constructor *)

Lemma init_result (w : World Model Matrix Target Explainer Attribution)
      (path id label folder : string) (io : IO Matrix Attribution) (table : DataFrame) :
  read_csv w path = Ok table ->
  __init__ w path id label folder io =
  if list_in id (columns table)
  then (Ok {| train_data :=
                {| columns := List.filter (fun c => negb (String.eqb c id)) (columns table);
                   rows := map (fun r => {| name := name r;
                                            cells := drop_cells id (columns table) (cells r) |})
                               (rows table) |};
              id_col := id;
              label := label;
              report_folder := folder;
              model_path := os_path_join folder "models";
              vp_report_path := os_path_join folder "vp_report.md";
              eval_metric := "mean_squared_error";
              train_id := map (fun r => (name r, cell_of id (columns table) (cells r)))
                              (rows table);
              original_features := Spec.FeatureSet id label table;
              vp_report_lines := [] |}, io)
  else (Err (KeyError id), io).
Proof.
  intros Hread. run. rewrite Hread. cbn.
  unfold getitem, drop, Spec.FeatureSet.
  destruct (list_in id (columns table)); cbn; [| reflexivity].
  now rewrite filter_twice.
Qed.

Lemma FeatureSet_In (id label c : string) (table : DataFrame) :
  In c (Spec.FeatureSet id label table) <-> In c (columns table) /\ c <> id /\ c <> label.
Proof.
  unfold Spec.FeatureSet. rewrite filter_In, andb_true_iff, !negb_true_iff, !String.eqb_neq.
  tauto.
Qed.

(** *** Calls only ever extend the line buffer *)

Lemma extend_nil (self : ValuePredictReport) : extend_vp_report_lines [] self = self.
Proof.
  destruct self. unfold extend_vp_report_lines. cbn. now rewrite app_nil_r.
Qed.

Lemma extend_extend (l1 l2 : list string) (self : ValuePredictReport) :
  extend_vp_report_lines l2 (extend_vp_report_lines l1 self)
  = extend_vp_report_lines (l1 ++ l2) self.
Proof.
  unfold extend_vp_report_lines. cbn. now rewrite app_assoc.
Qed.

Lemma generate_basic_part_self (w : World Model Matrix Target Explainer Attribution)
      (self : ValuePredictReport) (io : IO Matrix Attribution) :
  fst (snd (generate_basic_part w (self, io))) = self.
Proof. run. repeat step; reflexivity. Qed.

Lemma run_call_extends (w : World Model Matrix Target Explainer Attribution)
      (c : Call) (self : ValuePredictReport) (io : IO Matrix Attribution) :
  exists more,
    fst (snd (run_call w c (self, io))) = extend_vp_report_lines more self.
Proof.
  destruct c.
  - run. repeat step;
      solve [ exists []; now rewrite extend_nil | eexists; reflexivity ].
  - run. repeat step; exists []; now rewrite extend_nil.
  - run. repeat step; exists []; now rewrite extend_nil.
  - exists []. now rewrite extend_nil.
Qed.

Lemma run_calls_extends (history : list (World Model Matrix Target Explainer Attribution * Call))
      (self : ValuePredictReport) (io : IO Matrix Attribution) :
  exists more,
    fst (run_calls history (self, io)) = extend_vp_report_lines more self.
Proof.
  revert self io. induction history as [| [w c] history IH]; intros self io; cbn [run_calls].
  - exists []. now rewrite extend_nil.
  - destruct (run_call_extends w c self io) as (l1 & H1).
    destruct (run_call w c (self, io)) as [r [self1 io1]]. cbn in H1 |- *. subst self1.
    destruct (IH (extend_vp_report_lines l1 self) io1) as (l2 & H2).
    exists (l1 ++ l2)%list. now rewrite H2, extend_extend.
Qed.

(** *** What one run of [generate_basic_part] does *)


(** The result of a run depends on the attributes set by the constructor and on
    the environment, not on the files nor on the lines gathered so far. *)
Lemma generate_basic_part_result (w : World Model Matrix Target Explainer Attribution)
      (self : ValuePredictReport) (io io' : IO Matrix Attribution) (more : list string) :
  fst (generate_basic_part w (extend_vp_report_lines more self, io'))
  = fst (generate_basic_part w (self, io)).
Proof. run. repeat step; reflexivity. Qed.

(** A run that returns went through every stage. *)
Lemma generate_basic_part_ok (w : World Model Matrix Target Explainer Attribution)
      (self : ValuePredictReport) (io : IO Matrix Attribution)
      (basic : list string * list string) (s' : ValuePredictReport * IO Matrix Attribution) :
  generate_basic_part w (self, io) = (Ok basic, s') ->
  exists predictor leaderboard_df feature_importance_df used_features X y names
         lightgbm_model_name lgbm_model explainer values top30 board,
    fit w (label self) (model_path self) (eval_metric self) (train_data self) = Ok predictor
    /\ leaderboard predictor (train_data self) = Ok leaderboard_df
    /\ feature_importance predictor (train_data self) = Ok feature_importance_df
    /\ get_features predictor = Ok used_features
    /\ load_data_internal predictor "train" = Ok (X, y)
    /\ model_names predictor = Ok names
    /\ select_lightgbm names = Ok lightgbm_model_name
    /\ load_model predictor lightgbm_model_name = Ok lgbm_model
    /\ TreeExplainer w lgbm_model = Ok explainer
    /\ shap_values w explainer X = Ok values
    /\ to_markdown w (head 30 feature_importance_df) true = Ok top30
    /\ to_markdown w leaderboard_df false = Ok board
    /\ snd basic = recommend_features feature_importance_df default_top_k
    /\ fst basic =
         append (append (append (append (append (append
           (report_lines_literal self top30 board
              (summary_plot_path self) (bar_plot_path self)
              used_features (unused_of (original_features self) used_features))
           "## 推薦特徵")
           ("- 推薦特徵數量：" ++ str (length (snd basic))))
           "- 推薦特徵：")
           "  ```")
           ("  " ++ join ", " (snd basic)))
           "  ```"
    /\ s' = (self,
             {| files :=
                  <[bar_plot_path self :=
                      PngFile [{| drawn_values := values; drawn_features := X;
                                  drawn_type := Some "bar" |}]]>
                    (<[summary_plot_path self :=
                         PngFile [{| drawn_values := values; drawn_features := X;
                                     drawn_type := None |}]]> (files io));
                gcf := [{| drawn_values := values; drawn_features := X;
                           drawn_type := Some "bar" |}];
                log := (log io
                        ++ [ Fitted (label self) (model_path self) (eval_metric self)
                                    (train_data self);
                             Printed ("使用 SHAP 的模型：" ++ lightgbm_model_name);
                             Saved (summary_plot_path self);
                             Saved (bar_plot_path self) ])%list |}).
Proof.
  intros Hrun. run_in Hrun.
  repeat step_in Hrun; try discriminate.
  injection Hrun as <- <-.
  match goal with H : load_data_internal _ _ = Ok ?p |- _ => destruct p as [X y] end.
  cbn in *.
  repeat eexists; try eassumption; try reflexivity.
  unfold log_event, set_files, set_gcf, summary_plot_path, bar_plot_path. cbn.
  rewrite <- !app_assoc. reflexivity.
Qed.

Lemma unused_of_In (original used : list string) (f : string) :
  In f (unused_of original used) <-> In f original /\ ~ In f used.
Proof.
  unfold unused_of. rewrite filter_In, negb_true_iff, list_in_not_In. tauto.
Qed.

Lemma unused_of_set (original used : list string) :
  (list_to_set (unused_of original used) : gset string)
  = list_to_set original ∖ list_to_set used.
Proof.
  apply set_eq. intros f.
  rewrite elem_of_difference, !elem_of_list_to_set, !list_elem_of_In, unused_of_In.
  tauto.
Qed.

(** ** The claims *)

(** C1 (as amended). The feature set the constructor computes has as many
    entries as the loaded table has columns that are neither the identifier nor
    the label. The unused features are the feature set minus the used features:
    used and unused never overlap, and they partition the feature set exactly
    when every used feature is an original feature. *)
Theorem used_unused_split (w : World Model Matrix Target Explainer Attribution)
        (path id label folder : string) (io io' : IO Matrix Attribution)
        (table : DataFrame) (self : ValuePredictReport) (used : list string) :
  read_csv w path = Ok table ->
  __init__ w path id label folder io = (Ok self, io') ->
  length (original_features self) = length (Spec.FeatureSet id label table)
  /\ (list_to_set used ∩ list_to_set (unused_of (original_features self) used)
      = (∅ : gset string))
  /\ (list_to_set (unused_of (original_features self) used) : gset string)
     = list_to_set (original_features self) ∖ list_to_set used
  /\ ((list_to_set used : gset string) ⊆ list_to_set (original_features self) <->
      list_to_set used ∪ list_to_set (unused_of (original_features self) used)
      = (list_to_set (original_features self) : gset string)).
Proof.
  intros Hread Hinit. rewrite (init_result w path id label folder io table Hread) in Hinit.
  destruct (list_in id (columns table)); [| discriminate].
  injection Hinit as <- _. cbn [original_features].
  rewrite unused_of_set.
  split; [reflexivity |]. split.
  { apply set_eq. intros f.
    rewrite elem_of_intersection, elem_of_difference, elem_of_empty. tauto. }
  split; [reflexivity |].
  split.
  - intros Hsub. apply set_eq. intros f.
    rewrite elem_of_union, elem_of_difference.
    rewrite elem_of_subseteq in Hsub. specialize (Hsub f).
    destruct (decide (f ∈ (list_to_set used : gset string))); tauto.
  - intros Heq. apply elem_of_subseteq. intros f Hf.
    rewrite <- Heq. apply elem_of_union. now left.
Qed.

(** C2. Called with a count K, [recommend_features] returns the first
    min(K, F) index labels of an importance table of F rows, in table order;
    with the default K = 30 and ten rows it returns ten names. *)
Theorem recommend_features_first_min :
  (forall (df : DataFrame) (K : nat),
      recommend_features df (Z.of_nat K)
      = firstn (Nat.min K (len df)) (index_tolist df))
  /\ (forall df : DataFrame,
         recommend_features df default_top_k
         = firstn (Nat.min 30 (len df)) (index_tolist df))
  /\ (forall df : DataFrame,
         len df = 10 ->
         recommend_features df default_top_k = index_tolist df
         /\ length (recommend_features df default_top_k) = 10).
Proof.
  assert (Hmain : forall (df : DataFrame) (K : nat),
             recommend_features df (Z.of_nat K)
             = firstn (Nat.min K (len df)) (index_tolist df)).
  { intros df K. unfold recommend_features. rewrite index_tolist_head.
    unfold len. rewrite <- (length_map name (rows df)).
    symmetry. apply firstn_min_length. }
  split; [exact Hmain |]. split.
  - intros df. apply (Hmain df 30).
  - intros df Hten. change default_top_k with (Z.of_nat 30). rewrite Hmain, Hten.
    unfold len in Hten.
    assert (Hlen : length (index_tolist df) = 10)
      by (unfold index_tolist; now rewrite length_map).
    assert (Hall : firstn (Nat.min 30 10) (index_tolist df) = index_tolist df)
      by (apply firstn_all2; rewrite Hlen; cbn; lia).
    rewrite Hall. now split.
Qed.

(** C3. When some sub-model name contains "LightGBM", the selector returns the
    first such name in enumeration order. When none does, it raises
    [StopIteration], and a report generation whose earlier stages went through
    raises it too instead of going on without a model. *)
Theorem model_selection_first_match_or_error (names : list string) :
  ((exists m, In m names /\ Spec.Substring "LightGBM" m) ->
   exists before m after,
     names = (before ++ m :: after)%list
     /\ Spec.Substring "LightGBM" m
     /\ (forall m', In m' before -> ~ Spec.Substring "LightGBM" m')
     /\ select_lightgbm names = Ok m)
  /\ ((forall m, In m names -> ~ Spec.Substring "LightGBM" m) ->
      select_lightgbm names = Err StopIteration
      /\ forall (w : World Model Matrix Target Explainer Attribution)
                (self : ValuePredictReport) (io : IO Matrix Attribution)
                predictor leaderboard_df feature_importance_df used_features X_y,
          fit w (label self) (model_path self) (eval_metric self) (train_data self)
          = Ok predictor ->
          leaderboard predictor (train_data self) = Ok leaderboard_df ->
          feature_importance predictor (train_data self) = Ok feature_importance_df ->
          get_features predictor = Ok used_features ->
          load_data_internal predictor "train" = Ok X_y ->
          model_names predictor = Ok names ->
          fst (generate_report w (self, io)) = Err StopIteration
          /\ vp_report_lines (fst (snd (generate_report w (self, io))))
             = vp_report_lines self).
Proof.
  pose proof (next_filter (fun m => str_in "LightGBM" m) names) as Hnext.
  fold (select_lightgbm names) in Hnext.
  split.
  - intros (m0 & Hin & Hsub).
    destruct (select_lightgbm names) as [m | e].
    + destruct Hnext as (before & after & Hnames & Hm & Hbefore).
      exists before, m, after.
      split; [assumption |]. split; [now apply str_in_Substring |].
      split; [| reflexivity].
      intros m' Hm' Hsub'. rewrite List.Forall_forall in Hbefore.
      apply str_in_Substring in Hsub'. specialize (Hbefore m' Hm'). cbn in Hbefore.
      congruence.
    + destruct Hnext as [_ Hall]. rewrite List.Forall_forall in Hall.
      apply str_in_Substring in Hsub. specialize (Hall m0 Hin). cbn in Hall. congruence.
  - intros Hnone.
    assert (Hsel : select_lightgbm names = Err StopIteration).
    { destruct (select_lightgbm names) as [m | e].
      - destruct Hnext as (before & after & Hnames & Hm & _).
        exfalso. apply (Hnone m).
        + rewrite Hnames. apply in_elt.
        + now apply str_in_Substring.
      - now destruct Hnext as [-> _]. }
    split; [exact Hsel |].
    intros w self io predictor ldf fdf used X_y Hfit Hboard Himp Hused Hload Hnames.
    run. rewrite Hfit. cbn. rewrite Hboard. cbn. rewrite Himp. cbn. rewrite Hused. cbn.
    rewrite Hload. cbn. rewrite Hnames. cbn. rewrite Hsel. cbn. now split.
Qed.

(** C4 (as amended). Once the file is read, the constructor raises [KeyError]
    when the identifier column is absent, and builds the instance when it is
    present, whether or not there is a label column; either way it has invoked
    no training and changed nothing. *)
Theorem init_checks_identifier_only (w : World Model Matrix Target Explainer Attribution)
        (path id label folder : string) (io : IO Matrix Attribution) (table : DataFrame) :
  read_csv w path = Ok table ->
  (~ In id (columns table) ->
   __init__ w path id label folder io = (Err (KeyError id), io))
  /\ (In id (columns table) ->
      exists self, __init__ w path id label folder io = (Ok self, io))
  /\ List.filter is_fitted (log (snd (__init__ w path id label folder io)))
     = List.filter is_fitted (log io).
Proof.
  intros Hread. rewrite (init_result w path id label folder io table Hread).
  split; [| split].
  - intros Habsent. apply list_in_not_In in Habsent. now rewrite Habsent.
  - intros Hpresent. apply list_in_In in Hpresent. rewrite Hpresent. eexists. reflexivity.
  - now destruct (list_in id (columns table)).
Qed.

(** *** What one run of [generate_report] does *)

#[local] Arguments generate_basic_part : simpl never.

Lemma generate_report_unfold (w : World Model Matrix Target Explainer Attribution)
      (self : ValuePredictReport) (io : IO Matrix Attribution) :
  generate_report w (self, io) =
  match generate_basic_part w (self, log_event (Printed "Generating Report...") io) with
  | (Ok basic, (self1, io1)) =>
      let self2 := extend_vp_report_lines (fst basic) self1 in
      match writable w (vp_report_path self2) with
      | Ok _ =>
          (Ok tt,
           (self2,
            log_event (Printed ("Report Saved at: " ++ vp_report_path self2))
              (log_event (Written (vp_report_path self2))
                 (set_files
                    (<[vp_report_path self2 :=
                         TextFile (join newline (vp_report_lines self2))]> (files io1))
                    io1))))
      | Err e =>
          (Err e,
           (self2,
            if opened_before_raise w (vp_report_path self2)
            then truncate (vp_report_path self2) io1
            else io1))
      end
  | (Err e, s1) => (Err e, s1)
  end.
Proof.
  unfold generate_report, save_report, set_self, get_self, on_io, open_write, open_w,
    f_write, print, bind, call, modify, ret.
  cbn.
  destruct (generate_basic_part w (self, log_event (Printed "Generating Report...") io))
    as [[basic | e] [self1 io1]]; cbn; [| reflexivity].
  destruct (writable w (vp_report_path self1)) as [[] | e]; cbn.
  - unfold truncate, set_files, log_event. cbn. now rewrite insert_insert_eq.
  - destruct (opened_before_raise w (vp_report_path self1)); reflexivity.
Qed.

Lemma generate_report_result (w : World Model Matrix Target Explainer Attribution)
      (self : ValuePredictReport) (io io' : IO Matrix Attribution) (more : list string) :
  fst (generate_report w (extend_vp_report_lines more self, io'))
  = fst (generate_report w (self, io)).
Proof.
  rewrite !generate_report_unfold.
  pose proof (generate_basic_part_result w self
                (log_event (Printed "Generating Report...") io)
                (log_event (Printed "Generating Report...") io') more) as Hres.
  pose proof (generate_basic_part_self w (extend_vp_report_lines more self)
                (log_event (Printed "Generating Report...") io')) as Hself'.
  pose proof (generate_basic_part_self w self
                (log_event (Printed "Generating Report...") io)) as Hself.
  destruct (generate_basic_part w (extend_vp_report_lines more self, _))
    as [r' [self1' io1']].
  destruct (generate_basic_part w (self, _)) as [r [self1 io1]].
  cbn in Hres, Hself, Hself'. subst r' self1 self1'.
  destruct r as [basic | e]; cbn; [| reflexivity].
  destruct (writable w (vp_report_path self)); reflexivity.
Qed.

Lemma generated_lines_run (w : World Model Matrix Target Explainer Attribution)
      (self : ValuePredictReport) (io : IO Matrix Attribution) (more : list string)
      (basic : list string * list string) :
  fst (generate_basic_part w (extend_vp_report_lines more self, io)) = Ok basic ->
  generated_lines w self = fst basic.
Proof.
  intros Hrun. unfold generated_lines.
  now rewrite <- (generate_basic_part_result w self _ io more), Hrun.
Qed.

Lemma generated_lines_extend (w : World Model Matrix Target Explainer Attribution)
      (self : ValuePredictReport) (more : list string) :
  generated_lines w (extend_vp_report_lines more self) = generated_lines w self.
Proof.
  unfold generated_lines.
  now rewrite (generate_basic_part_result w self
                 {| files := ∅; gcf := []; log := [] |}
                 {| files := ∅; gcf := []; log := [] |} more).
Qed.

(** One successful call: the buffer gains the lines of this run and the file
    holds the whole buffer. *)
Lemma generate_report_ok (w : World Model Matrix Target Explainer Attribution)
      (self : ValuePredictReport) (io : IO Matrix Attribution)
      (s' : ValuePredictReport * IO Matrix Attribution) :
  generate_report w (self, io) = (Ok tt, s') ->
  fst s' = extend_vp_report_lines (generated_lines w self) self
  /\ files (snd s') !! vp_report_path self
     = Some (TextFile (join newline (vp_report_lines self ++ generated_lines w self)))
  /\ exists basic s1,
      generate_basic_part w (self, log_event (Printed "Generating Report...") io)
      = (Ok basic, s1)
      /\ generated_lines w self = fst basic.
Proof.
  rewrite generate_report_unfold. intros Hrun.
  pose proof (generate_basic_part_self w self
                (log_event (Printed "Generating Report...") io)) as Hself.
  pose proof (generated_lines_run w self
                (log_event (Printed "Generating Report...") io) []) as Hlines.
  rewrite extend_nil in Hlines.
  destruct (generate_basic_part w (self, _)) as [[basic | e] [self1 io1]];
    cbn in Hself, Hrun; [| discriminate].
  subst self1. specialize (Hlines basic eq_refl).
  destruct (writable w (vp_report_path self)); [| discriminate].
  injection Hrun as <-. cbn. rewrite Hlines.
  split; [reflexivity |]. split; [apply lookup_insert_eq |].
  now exists basic, (self, io1).
Qed.

Lemma generate_report_each_ok (ws : list (World Model Matrix Target Explainer Attribution))
      (self : ValuePredictReport) (io : IO Matrix Attribution)
      (s' : ValuePredictReport * IO Matrix Attribution) :
  generate_report_each ws (self, io) = (Ok tt, s') ->
  fst s' = extend_vp_report_lines (concat (map (fun w => generated_lines w self) ws)) self
  /\ (ws <> [] ->
      files (snd s') !! vp_report_path self
      = Some (TextFile (join newline (vp_report_lines (fst s'))))).
Proof.
  revert self io. induction ws as [| w ws IH]; intros self io; cbn [generate_report_each].
  - unfold ret. intros [= <-]. cbn. rewrite extend_nil. now split.
  - unfold bind at 1.
    destruct (generate_report w (self, io)) as [[[] | e] s1] eqn:Hfirst; [| discriminate].
    intros Hrest. apply generate_report_ok in Hfirst as (Hself1 & Hfile1 & _).
    destruct s1 as [self1 io1]. cbn in Hself1, Hfile1. subst self1.
    destruct (IH _ _ Hrest) as (Hself' & Hfile').
    rewrite (map_ext _ (fun w0 => generated_lines w0 self)) in Hself'
      by (intros w0; apply generated_lines_extend).
    rewrite extend_extend in Hself'.
    split; [exact Hself' |]. intros _.
    destruct ws as [| w' ws'].
    + cbn in Hrest. unfold ret in Hrest. injection Hrest as <-. exact Hfile1.
    + apply Hfile'. discriminate.
Qed.

Lemma generate_basic_part_document (w : World Model Matrix Target Explainer Attribution)
      (self : ValuePredictReport) (io : IO Matrix Attribution)
      (basic : list string * list string) (s' : ValuePredictReport * IO Matrix Attribution) :
  generate_basic_part w (self, io) = (Ok basic, s') ->
  is_report_document w self (fst basic).
Proof.
  intros Hrun. apply generate_basic_part_ok in Hrun
    as (predictor & ldf & fdf & used & X & y & names & m & model & expl & values
        & top30 & board & Hfit & Hboard & Himp & Hused & _ & _ & _ & _ & _ & _
        & Htop & Hlb & Hrec & Hlines & _).
  exists predictor, ldf, fdf, used, top30, board.
  repeat (split; [assumption |]).
  rewrite Hlines, Hrec. reflexivity.
Qed.

(** C5. The lines a successful run assembles are the seven parts of the
    document in their fixed order, and the file a first successful
    [generate_report] writes is those lines joined by newlines. *)
Theorem report_sections_in_order (w : World Model Matrix Target Explainer Attribution)
        (self : ValuePredictReport) (io : IO Matrix Attribution) :
  (forall basic s',
      generate_basic_part w (self, io) = (Ok basic, s') ->
      is_report_document w self (fst basic))
  /\ (forall s',
         vp_report_lines self = [] ->
         generate_report w (self, io) = (Ok tt, s') ->
         exists lines,
           is_report_document w self lines
           /\ vp_report_lines (fst s') = lines
           /\ files (snd s') !! vp_report_path self = Some (TextFile (join newline lines))).
Proof.
  split.
  - intros basic s'. apply generate_basic_part_document.
  - intros s' Hfresh Hrun.
    apply generate_report_ok in Hrun as (Hself & Hfile & basic & s1 & Hbasic & Hlines).
    exists (generated_lines w self). rewrite Hself, Hfile, Hfresh, Hlines. cbn.
    rewrite Hfresh. repeat split.
    eapply generate_basic_part_document; eassumption.
Qed.


Lemma history_keeps_attributes
      (history : list (World Model Matrix Target Explainer Attribution * Call))
      (self : ValuePredictReport) (io : IO Matrix Attribution) :
  report_folder (fst (run_calls history (self, io))) = report_folder self
  /\ vp_report_path (fst (run_calls history (self, io))) = vp_report_path self
  /\ original_features (fst (run_calls history (self, io))) = original_features self
  /\ exists more,
      vp_report_lines (fst (run_calls history (self, io))) = (vp_report_lines self ++ more)%list.
Proof.
  destruct (run_calls_extends history self io) as (more & ->). cbn.
  repeat split. now exists more.
Qed.


(** C7. The feature set the constructor stores is the columns of the loaded
    table that are neither the identifier nor the label, so it holds neither of
    them, and no later call on the instance changes it. *)
Theorem feature_set_fixed_at_load (w : World Model Matrix Target Explainer Attribution)
        (path id label folder : string) (io io' : IO Matrix Attribution)
        (table : DataFrame) (self : ValuePredictReport) :
  read_csv w path = Ok table ->
  __init__ w path id label folder io = (Ok self, io') ->
  original_features self = Spec.FeatureSet id label table
  /\ ~ In id (original_features self)
  /\ ~ In label (original_features self)
  /\ ~ In id (columns (train_data self))
  /\ (forall c, In c (original_features self)
                <-> In c (columns table) /\ c <> id /\ c <> label)
  /\ forall (history : list (World Model Matrix Target Explainer Attribution * Call))
            (io_h : IO Matrix Attribution),
      original_features (fst (run_calls history (self, io_h))) = original_features self.
Proof.
  intros Hread Hinit.
  rewrite (init_result w path id label folder io table Hread) in Hinit.
  destruct (list_in id (columns table)); [| discriminate].
  injection Hinit as <- _. cbn [original_features train_data columns].
  split; [reflexivity |].
  split; [rewrite FeatureSet_In; tauto |].
  split; [rewrite FeatureSet_In; tauto |].
  split.
  { rewrite filter_In, negb_true_iff, String.eqb_neq. tauto. }
  split; [intros c; apply FeatureSet_In |].
  intros history io_h. apply history_keeps_attributes.
Qed.

(** Close a case in which the run stopped before the bar chart was saved. *)
Ltac no_bar_saved H :=
  exfalso; cbn in H;
  repeat match type of H with
         | _ \/ _ => destruct H as [H | H]
         end;
  solve [ discriminate H
        | contradiction
        | injection H as H;
          apply os_path_join_inj in H; [discriminate | reflexivity | reflexivity] ].

(** C8. In every run that gets as far as saving the bar chart, both images
    were drawn from the attribution matrix the explainer returned for the
    selected model and from the matrix X it was computed on, each on a figure
    of its own, and each went to its fixed file name under the report folder. *)
Theorem shap_plots_share_inputs (w : World Model Matrix Target Explainer Attribution)
        (self : ValuePredictReport) (io : IO Matrix Attribution) (evs : list Event) :
  log (snd (snd (generate_basic_part w (self, io)))) = (log io ++ evs)%list ->
  In (Saved (os_path_join (report_folder self) "shap_bar_plot.png")) evs ->
  exists predictor X y names lightgbm_model_name lgbm_model explainer values,
    fit w (label self) (model_path self) (eval_metric self) (train_data self) = Ok predictor
    /\ load_data_internal predictor "train" = Ok (X, y)
    /\ model_names predictor = Ok names
    /\ select_lightgbm names = Ok lightgbm_model_name
    /\ load_model predictor lightgbm_model_name = Ok lgbm_model
    /\ TreeExplainer w lgbm_model = Ok explainer
    /\ shap_values w explainer X = Ok values
    /\ files (snd (snd (generate_basic_part w (self, io))))
         !! os_path_join (report_folder self) "shap_summary_plot.png"
       = Some (PngFile [{| drawn_values := values; drawn_features := X;
                           drawn_type := None |}])
    /\ files (snd (snd (generate_basic_part w (self, io))))
         !! os_path_join (report_folder self) "shap_bar_plot.png"
       = Some (PngFile [{| drawn_values := values; drawn_features := X;
                           drawn_type := Some "bar" |}]).
Proof.
  pose proof (plot_paths_differ self) as Hdiff.
  unfold summary_plot_path, bar_plot_path in Hdiff.
  run.
  repeat step; rewrite <- ?app_assoc; intros Hlog Hin;
    apply app_inv_head in Hlog; subst evs;
    try (no_bar_saved Hin);
    match goal with
    | H : load_data_internal _ _ = Ok ?p |- _ => destruct p as [X y]
    end;
    cbn in *;
    repeat eexists; try eassumption.
  all: first [ apply lookup_insert_eq
             | rewrite lookup_insert_ne by congruence; apply lookup_insert_eq ].
Qed.

(** C9. No call on an instance removes lines from its buffer: every call
    leaves the old buffer as a prefix of the new one. The buffer after a series
    of successful [generate_report] calls is the old buffer followed by the
    lines of each call in turn, and the file holds all of it; called n+1 times
    in the same environment on a new instance, the file holds n+1 copies of
    the generated lines. *)
Theorem report_lines_accumulate :
  (forall (w : World Model Matrix Target Explainer Attribution) (c : Call)
          (self : ValuePredictReport) (io : IO Matrix Attribution),
      exists more,
        vp_report_lines (fst (snd (run_call w c (self, io))))
        = (vp_report_lines self ++ more)%list)
  /\ (forall (ws : list (World Model Matrix Target Explainer Attribution))
             (self : ValuePredictReport) (io : IO Matrix Attribution) s',
         generate_report_each ws (self, io) = (Ok tt, s') ->
         vp_report_lines (fst s')
         = (vp_report_lines self ++ concat (map (fun w => generated_lines w self) ws))%list
         /\ (ws <> [] ->
             files (snd s') !! vp_report_path self
             = Some (TextFile (join newline (vp_report_lines (fst s'))))))
  /\ (forall (w : World Model Matrix Target Explainer Attribution) (n : nat)
             (self : ValuePredictReport) (io : IO Matrix Attribution),
         vp_report_lines self = [] ->
         fst (generate_report w (self, io)) = Ok tt ->
         fst (generate_report_each (repeat w (S n)) (self, io)) = Ok tt
         /\ vp_report_lines (fst (snd (generate_report_each (repeat w (S n)) (self, io))))
            = concat (repeat (generated_lines w self) (S n))
         /\ files (snd (snd (generate_report_each (repeat w (S n)) (self, io))))
              !! vp_report_path self
            = Some (TextFile (join newline
                                (concat (repeat (generated_lines w self) (S n)))))).
Proof.
  split; [| split].
  - intros w c self io. destruct (run_call_extends w c self io) as (more & ->).
    now exists more.
  - intros ws self io s' Hrun.
    destruct (generate_report_each_ok ws self io s' Hrun) as (Hself & Hfile).
    split; [now rewrite Hself | exact Hfile].
  - intros w n self io Hfresh Hfirst.
    assert (Hok : forall k self1 io1 more,
               self1 = extend_vp_report_lines more self ->
               fst (generate_report_each (repeat w k) (self1, io1)) = Ok tt).
    { induction k as [| k IH]; intros self1 io1 more ->; cbn; [reflexivity |].
      unfold bind.
      pose proof (generate_report_result w self io io1 more) as Hres.
      rewrite Hfirst in Hres.
      pose proof (run_call_extends w CallGenerateReport
                    (extend_vp_report_lines more self) io1) as (more' & Hext).
      cbn [run_call] in Hext.
      destruct (generate_report w (extend_vp_report_lines more self, io1))
        as [r [self2 io2]].
      cbn in Hres, Hext. subst r self2. rewrite extend_extend.
      now apply (IH _ io2 (more ++ more')%list). }
    specialize (Hok (S n) self io [] (eq_sym (extend_nil self))).
    destruct (generate_report_each (repeat w (S n)) (self, io)) as [r s'] eqn:Hrun.
    cbn in Hok. subst r.
    destruct (generate_report_each_ok _ self io s' Hrun) as (Hself & Hfile).
    rewrite map_repeat in Hself. cbn [fst snd].
    split; [reflexivity |].
    assert (Hlines : vp_report_lines (fst s')
                     = concat (repeat (generated_lines w self) (S n)))
      by (rewrite Hself; cbn [vp_report_lines extend_vp_report_lines];
          now rewrite Hfresh).
    split; [exact Hlines |].
    rewrite <- Hlines. apply Hfile. discriminate.
Qed.

(** C10. [recommend_features] reads the table it is given and nothing else:
    the table behind the reference is the same after the call, so is every
    other table that existed, the instance and the files are untouched, and a
    second call returns the same list. *)
Theorem recommend_features_reads_only (h : gmap nat DataFrame) (r : nat)
        (df : DataFrame) (top_k : Z) :
  h !! r = Some df ->
  (exists h',
      Heap.recommend_features_ref r top_k h = (Ok (recommend_features df top_k), h')
      /\ h' !! r = Some df
      /\ h ⊆ h'
      /\ fst (Heap.recommend_features_ref r top_k h') = Ok (recommend_features df top_k))
  /\ forall (w : World Model Matrix Target Explainer Attribution)
            (s : ValuePredictReport * IO Matrix Attribution),
      run_call w (CallRecommendFeatures df top_k) s = (Ok tt, s).
Proof.
  intros Hr. split; [| reflexivity].
  assert (Hfresh : forall h0 : gmap nat DataFrame,
             h0 !! r = Some df -> r <> fresh (dom h0)).
  { intros h0 H0 Heq. pose proof (heap_alloc_fresh h0) as Hnone.
    rewrite <- Heq in Hnone. congruence. }
  assert (Hcall : forall h0 : gmap nat DataFrame,
             h0 !! r = Some df ->
             Heap.recommend_features_ref r top_k h0
             = (Ok (recommend_features df top_k),
                <[fresh (dom h0) := head top_k df]> h0)).
  { intros h0 H0.
    unfold Heap.recommend_features_ref, Heap.df_head, Heap.df_index_tolist,
      Heap.deref, Heap.alloc, bind, ret.
    rewrite H0. cbn. now rewrite lookup_insert_eq. }
  exists (<[fresh (dom h) := head top_k df]> h).
  assert (Hkept : <[fresh (dom h) := head top_k df]> h !! r = Some df)
    by (rewrite lookup_insert_ne by (apply not_eq_sym, Hfresh, Hr); exact Hr).
  split; [now apply Hcall |]. split; [exact Hkept |].
  split; [apply insert_subseteq, heap_alloc_fresh |].
  now rewrite (Hcall _ Hkept).
Qed.

End Properties.

(** ** The claims on the small run *)

Lemma used_unused_split_witness :
  read_csv (Example.world Example.sub_models) "train.csv" = Ok Example.table
  /\ __init__ (Example.world Example.sub_models) "train.csv" "id" "y" "out" Example.io0
     = (Ok Example.instance, Example.io0)
  /\ length (original_features Example.instance)
     = length (Spec.FeatureSet "id" "y" Example.table)
  /\ list_to_set ["age"]
       ∩ list_to_set (unused_of (original_features Example.instance) ["age"])
     = (∅ : gset string).
Proof.
  assert (H1 : read_csv (Example.world Example.sub_models) "train.csv" = Ok Example.table)
    by reflexivity.
  assert (H2 : __init__ (Example.world Example.sub_models) "train.csv" "id" "y" "out"
                        Example.io0
               = (Ok Example.instance, Example.io0))
    by (vm_compute; reflexivity).
  split; [exact H1 |]. split; [exact H2 |].
  destruct (used_unused_split (Example.world Example.sub_models) "train.csv" "id" "y" "out"
              Example.io0 Example.io0 Example.table Example.instance ["age"] H1 H2)
    as (Hlen & Hdisjoint & _).
  split; [exact Hlen | exact Hdisjoint].
Defined.

(** C1 as stated fails: the engine reports a derived column as used, so used
    and unused together are more than the feature set. *)
Lemma used_unused_not_partition :
  fst (__init__ (Example.world Example.sub_models) "train.csv" "id" "y" "out" Example.io0)
  = Ok Example.instance
  /\ get_features (Example.predictor Example.sub_models) = Ok Example.used
  /\ (list_to_set Example.used
        ∪ list_to_set (unused_of (original_features Example.instance) Example.used)
      : gset string)
     <> list_to_set (original_features Example.instance).
Proof.
  split; [vm_compute; reflexivity |]. split; [reflexivity |].
  intros Heq.
  assert (Hin : "signup.year"
                  ∈ (list_to_set (original_features Example.instance) : gset string)).
  { rewrite <- Heq. apply elem_of_union. left.
    apply elem_of_list_to_set, list_elem_of_In. cbn. tauto. }
  apply elem_of_list_to_set, list_elem_of_In in Hin. cbn in Hin.
  destruct Hin as [H | [H | []]]; discriminate H.
Qed.

Lemma recommend_features_first_min_witness :
  len Example.ten_features = 10
  /\ recommend_features Example.ten_features default_top_k
     = index_tolist Example.ten_features
  /\ length (recommend_features Example.ten_features default_top_k) = 10.
Proof.
  split; [reflexivity |].
  apply (proj2 (proj2 recommend_features_first_min) Example.ten_features). reflexivity.
Defined.

Lemma model_selection_witness :
  (exists before m after,
      Example.sub_models = (before ++ m :: after)%list
      /\ Spec.Substring "LightGBM" m
      /\ (forall m', In m' before -> ~ Spec.Substring "LightGBM" m')
      /\ select_lightgbm Example.sub_models = Ok m)
  /\ select_lightgbm ["CatBoost"; "XGBoost"] = Err StopIteration.
Proof.
  split.
  - apply (proj1 (@model_selection_first_match_or_error
                    string (list (list Z)) (list string) string (list (list Z))
                    Example.sub_models)).
    exists "LightGBM". split; [cbn; tauto | now exists "", ""].
  - apply (proj2 (@model_selection_first_match_or_error
                    string (list (list Z)) (list string) string (list (list Z))
                    ["CatBoost"; "XGBoost"])).
    intros m Hin Hsub. apply str_in_Substring in Hsub.
    destruct Hin as [<- | [<- | []]]; vm_compute in Hsub; discriminate Hsub.
Defined.

Lemma init_checks_identifier_only_witness :
  read_csv (Example.world Example.sub_models) "train.csv" = Ok Example.table
  /\ __init__ (Example.world Example.sub_models) "train.csv" "uid" "y" "out" Example.io0
     = (Err (KeyError "uid"), Example.io0)
  /\ exists self,
      __init__ (Example.world Example.sub_models) "train.csv" "id" "price" "out" Example.io0
      = (Ok self, Example.io0).
Proof.
  assert (H1 : read_csv (Example.world Example.sub_models) "train.csv" = Ok Example.table)
    by reflexivity.
  split; [exact H1 |]. split.
  - apply (proj1 (init_checks_identifier_only (Example.world Example.sub_models)
                    "train.csv" "uid" "y" "out" Example.io0 Example.table H1)).
    intros Hin. cbn in Hin. destruct Hin as [H | [H | [H | [H | []]]]]; discriminate H.
  - apply (proj1 (proj2 (init_checks_identifier_only (Example.world Example.sub_models)
                           "train.csv" "id" "price" "out" Example.io0 Example.table H1))).
    cbn. tauto.
Defined.

(** C4 as stated fails: the table has no column "price", and the constructor
    returns an instance with that label. *)
Lemma init_accepts_missing_label :
  read_csv (Example.world Example.sub_models) "train.csv" = Ok Example.table
  /\ ~ In "price" (columns Example.table)
  /\ is_ok (fst (__init__ (Example.world Example.sub_models) "train.csv" "id" "price" "out"
                          Example.io0)) = true.
Proof.
  split; [reflexivity |]. split; [| vm_compute; reflexivity].
  intros Hin. cbn in Hin. destruct Hin as [H | [H | [H | [H | []]]]]; discriminate H.
Qed.

Lemma report_sections_in_order_witness :
  Example.run_basic = (Ok Example.basic, snd Example.run_basic)
  /\ is_report_document (Example.world Example.sub_models) Example.instance
                        (fst Example.basic).
Proof.
  assert (H : generate_basic_part (Example.world Example.sub_models)
                                  (Example.instance, Example.io0)
              = (Ok Example.basic, snd Example.run_basic))
    by (vm_compute; reflexivity).
  split; [exact H |].
  exact (proj1 (report_sections_in_order (Example.world Example.sub_models)
                  Example.instance Example.io0) _ _ H).
Defined.


Lemma feature_set_fixed_witness :
  read_csv (Example.world Example.sub_models) "train.csv" = Ok Example.table
  /\ __init__ (Example.world Example.sub_models) "train.csv" "id" "y" "out" Example.io0
     = (Ok Example.instance, Example.io0)
  /\ original_features Example.instance = Spec.FeatureSet "id" "y" Example.table
  /\ original_features
       (fst (run_calls [(Example.world Example.sub_models, CallGenerateReport);
                        (Example.world ["CatBoost"], CallGenerateReport)]
                       (Example.instance, Example.io0)))
     = original_features Example.instance.
Proof.
  assert (H1 : read_csv (Example.world Example.sub_models) "train.csv" = Ok Example.table)
    by reflexivity.
  assert (H2 : __init__ (Example.world Example.sub_models) "train.csv" "id" "y" "out"
                        Example.io0
               = (Ok Example.instance, Example.io0))
    by (vm_compute; reflexivity).
  split; [exact H1 |]. split; [exact H2 |].
  destruct (feature_set_fixed_at_load (Example.world Example.sub_models)
              "train.csv" "id" "y" "out" Example.io0 Example.io0 Example.table
              Example.instance H1 H2)
    as (Hset & _ & _ & _ & _ & Hkept).
  split; [exact Hset | apply Hkept].
Defined.

Lemma shap_plots_share_inputs_witness :
  exists X values,
    files (snd (snd Example.run_basic)) !! "out/shap_summary_plot.png"
    = Some (PngFile [{| drawn_values := values; drawn_features := X;
                        drawn_type := None |}])
    /\ files (snd (snd Example.run_basic)) !! "out/shap_bar_plot.png"
       = Some (PngFile [{| drawn_values := values; drawn_features := X;
                           drawn_type := Some "bar" |}]).
Proof.
  assert (Hlog : log (snd (snd (generate_basic_part (Example.world Example.sub_models)
                                                    (Example.instance, Example.io0))))
                 = (log Example.io0 ++ log (snd (snd Example.run_basic)))%list)
    by reflexivity.
  assert (Hin : In (Saved (os_path_join (report_folder Example.instance)
                                        "shap_bar_plot.png"))
                   (log (snd (snd Example.run_basic))))
    by (vm_compute; do 3 right; left; reflexivity).
  destruct (shap_plots_share_inputs (Example.world Example.sub_models)
              Example.instance Example.io0 _ Hlog Hin)
    as (_ & X & _ & _ & _ & _ & _ & values & _ & _ & _ & _ & _ & _ & _ & Hsum & Hbar).
  exists X, values. split; [exact Hsum | exact Hbar].
Defined.

Lemma report_lines_accumulate_witness :
  vp_report_lines Example.instance = []
  /\ fst (generate_report (Example.world Example.sub_models)
                          (Example.instance, Example.io0)) = Ok tt
  /\ vp_report_lines
       (fst (snd (generate_report_each
                    (repeat (Example.world Example.sub_models) 2)
                    (Example.instance, Example.io0))))
     = concat (repeat (generated_lines (Example.world Example.sub_models)
                                       Example.instance) 2).
Proof.
  assert (H1 : vp_report_lines Example.instance = []) by reflexivity.
  assert (H2 : fst (generate_report (Example.world Example.sub_models)
                                    (Example.instance, Example.io0)) = Ok tt)
    by (vm_compute; reflexivity).
  split; [exact H1 |]. split; [exact H2 |].
  destruct (proj2 (proj2 report_lines_accumulate)
              (Example.world Example.sub_models) 1 Example.instance Example.io0 H1 H2)
    as (_ & Hlines & _).
  exact Hlines.
Defined.

Lemma recommend_features_reads_only_witness :
  Example.store !! 0 = Some Example.importance_table
  /\ exists h',
      Heap.recommend_features_ref 0 1 Example.store
      = (Ok (recommend_features Example.importance_table 1), h')
      /\ h' !! 0 = Some Example.importance_table.
Proof.
  assert (H : Example.store !! 0 = Some Example.importance_table) by reflexivity.
  split; [exact H |].
  destruct (proj1 (@recommend_features_reads_only
                     string (list (list Z)) (list string) string (list (list Z))
                     Example.store 0 Example.importance_table 1 H))
    as (h' & Hcall & Hkept & _).
  exists h'. split; [exact Hcall | exact Hkept].
Defined.

(** * Further properties of the code *)

(** ** The recommender at the edges *)

Lemma index_tolist_head_any (k : Z) (df : DataFrame) :
  index_tolist (head k df) = slice_to k (index_tolist df).
Proof.
  unfold index_tolist, head, slice_to; cbn [rows].
  rewrite length_map. destruct (k <? 0)%Z; symmetry; apply firstn_map.
Qed.

Lemma index_tolist_length (df : DataFrame) : length (index_tolist df) = len df.
Proof. unfold index_tolist, len. apply length_map. Qed.

(** [recommend_features] with no room for a name, with room for all, and with
    a negative [top_k]: nothing, every name, and every name but the last
    [-top_k]. *)
Theorem recommend_features_edge_counts (df : DataFrame) :
  recommend_features df 0 = []
  /\ (forall k : Z, (Z.of_nat (len df) <= k)%Z ->
                    recommend_features df k = index_tolist df)
  /\ (forall k : Z, (k < 0)%Z ->
                    recommend_features df k
                    = firstn (len df - Z.to_nat (- k)) (index_tolist df))
  /\ (forall k : Z, (k <= - Z.of_nat (len df))%Z -> (k < 0)%Z ->
                    recommend_features df k = []).
Proof.
  unfold recommend_features.
  split; [| split; [| split]].
  - rewrite index_tolist_head_any. reflexivity.
  - intros k Hk. rewrite index_tolist_head_any. unfold slice_to.
    destruct (Z.ltb_spec k 0) as [Hneg | _]; [lia |].
    apply firstn_all2. rewrite index_tolist_length. lia.
  - intros k Hk. rewrite index_tolist_head_any, slice_to_negative by assumption.
    now rewrite index_tolist_length.
  - intros k Hk Hneg. rewrite index_tolist_head_any, slice_to_negative by assumption.
    rewrite index_tolist_length.
    replace (len df - Z.to_nat (- k)) with 0 by lia. reflexivity.
Qed.

Lemma firstn_prefix_of {A} (n : nat) (l : list A) : firstn n l `prefix_of` l.
Proof. exists (skipn n l). symmetry. apply firstn_skipn. Qed.

(** The recommendation is always a leading part of the table's index, it only
    grows with the count, and recommending from a table already cut to its
    first k2 rows changes nothing for a count up to k2. *)
Theorem recommend_features_prefix :
  (forall (df : DataFrame) (k : Z),
      recommend_features df k `prefix_of` index_tolist df)
  /\ (forall (df : DataFrame) (k1 k2 : Z),
         (0 <= k1 <= k2)%Z ->
         recommend_features df k1 `prefix_of` recommend_features df k2)
  /\ (forall (df : DataFrame) (k1 k2 : Z),
         (0 <= k1 <= k2)%Z ->
         recommend_features (head k2 df) k1 = recommend_features df k1).
Proof.
  unfold recommend_features.
  split; [| split].
  - intros df k. rewrite index_tolist_head_any. unfold slice_to.
    destruct (k <? 0)%Z; apply firstn_prefix_of.
  - intros df k1 k2 Hk. rewrite !index_tolist_head_any. unfold slice_to.
    destruct (Z.ltb_spec k1 0) as [Hneg | _]; [lia |].
    destruct (Z.ltb_spec k2 0) as [Hneg | _]; [lia |].
    replace (firstn (Z.to_nat k1) (index_tolist df))
      with (firstn (Z.to_nat k1) (firstn (Z.to_nat k2) (index_tolist df))).
    + apply firstn_prefix_of.
    + rewrite firstn_firstn. f_equal. lia.
  - intros df k1 k2 Hk. rewrite !index_tolist_head_any. unfold slice_to.
    destruct (Z.ltb_spec k1 0) as [Hneg | _]; [lia |].
    destruct (Z.ltb_spec k2 0) as [Hneg | _]; [lia |].
    rewrite firstn_firstn. f_equal. lia.
Qed.

(** ** Unused features *)

(** The unused features keep the order (and the repetitions) of the original
    features; with nothing used they are all the original features; there are
    none exactly when every original feature is used; and taking the used
    features out a second time removes nothing more. *)
Theorem unused_features_keep_order (original used : list string) :
  unused_of original used `sublist_of` original
  /\ unused_of original [] = original
  /\ (unused_of original used = [] <-> forall f, In f original -> In f used)
  /\ (List.NoDup original -> List.NoDup (unused_of original used))
  /\ unused_of (unused_of original used) used = unused_of original used.
Proof.
  unfold unused_of.
  split; [| split; [| split; [| split]]].
  - induction original as [| f original IH]; cbn; [constructor |].
    destruct (negb (list_in f used)); [now apply sublist_skip | now apply sublist_cons].
  - induction original as [| f original IH]; cbn; [reflexivity | f_equal; exact IH].
  - induction original as [| f original IH]; cbn.
    + split; [intros _ f [] | reflexivity].
    + destruct (list_in f used) eqn:Hf; cbn.
      * rewrite IH. apply list_in_In in Hf. split.
        -- intros Hall g [<- | Hg]; [assumption | now apply Hall].
        -- intros Hall g Hg. apply Hall. now right.
      * apply list_in_not_In in Hf. split; [discriminate |].
        intros Hall. exfalso. apply Hf, Hall. now left.
  - intros Hnodup. now apply List.NoDup_filter.
  - induction original as [| f original IH]; cbn; [reflexivity |].
    destruct (list_in f used) eqn:Hf; cbn; [exact IH |].
    rewrite Hf. cbn. now rewrite IH.
Qed.

(** ** Model selection along the enumeration *)

(** Names enumerated after a match never change the selection, and names
    without a match in front only delay it. *)
Theorem select_lightgbm_app (l1 l2 : list string) :
  select_lightgbm (l1 ++ l2)
  = match select_lightgbm l1 with
    | Ok m => Ok m
    | Err _ => select_lightgbm l2
    end.
Proof.
  unfold select_lightgbm. rewrite List.filter_app.
  destruct (List.filter (fun m => str_in "LightGBM" m) l1); reflexivity.
Qed.

(** ** The constructor and the calls, further *)

Section Further.

Context {Model Matrix Target Explainer Attribution : Type}.

#[local] Arguments report_lines_literal : simpl never.
#[local] Arguments append : simpl never.
#[local] Arguments recommend_features : simpl never.
#[local] Arguments os_path_join : simpl never.
#[local] Arguments unused_of : simpl never.
#[local] Arguments select_lightgbm : simpl never.
#[local] Arguments head : simpl never.
#[local] Arguments join : simpl never.
#[local] Arguments generate_basic_part : simpl never.





(** No call changes any attribute the constructor set, the line buffer
    apart. *)
Theorem attributes_fixed
        (history : list (World Model Matrix Target Explainer Attribution * Call))
        (self : ValuePredictReport) (io : IO Matrix Attribution) :
  train_data (fst (run_calls history (self, io))) = train_data self
  /\ id_col (fst (run_calls history (self, io))) = id_col self
  /\ label (fst (run_calls history (self, io))) = label self
  /\ report_folder (fst (run_calls history (self, io))) = report_folder self
  /\ model_path (fst (run_calls history (self, io))) = model_path self
  /\ vp_report_path (fst (run_calls history (self, io))) = vp_report_path self
  /\ eval_metric (fst (run_calls history (self, io))) = eval_metric self
  /\ train_id (fst (run_calls history (self, io))) = train_id self.
Proof.
  destruct (run_calls_extends history self io) as (more & ->). cbn. repeat split.
Qed.

(** The four outputs of an instance (the models folder, the report, the two
    images) are four different paths. *)
Theorem output_paths_distinct (w : World Model Matrix Target Explainer Attribution)
        (path id label folder : string) (io io' : IO Matrix Attribution)
        (self : ValuePredictReport) :
  __init__ w path id label folder io = (Ok self, io') ->
  List.NoDup [model_path self; vp_report_path self;
              summary_plot_path self; bar_plot_path self]
  /\ exists dir,
      model_path self = dir ++ "models"
      /\ vp_report_path self = dir ++ "vp_report.md"
      /\ summary_plot_path self = dir ++ "shap_summary_plot.png"
      /\ bar_plot_path self = dir ++ "shap_bar_plot.png".
Proof.
  intros Hinit. destruct (read_csv w path) as [table | e] eqn:Hread.
  2: { unfold __init__, bind, call in Hinit. rewrite Hread in Hinit. discriminate. }
  rewrite (init_result w path id label folder io table Hread) in Hinit.
  destruct (list_in id (columns table)); [| discriminate].
  injection Hinit as <- _. unfold summary_plot_path, bar_plot_path. cbn.
  destruct (os_path_join_relative folder "models" eq_refl) as (dir & Hdir).
  rewrite !Hdir by reflexivity.
  split.
  - repeat constructor; cbn; intros Hin;
      repeat match type of Hin with
             | _ \/ _ => destruct Hin as [Hin | Hin]
             | False => contradiction
             | _ = _ => apply string_app_inv_head in Hin; discriminate Hin
             end.
  - exists dir. repeat split.
Qed.



Lemma generate_basic_part_result_io (w : World Model Matrix Target Explainer Attribution)
      (self : ValuePredictReport) (io io' : IO Matrix Attribution) :
  fst (generate_basic_part w (self, io')) = fst (generate_basic_part w (self, io)).
Proof.
  rewrite <- (generate_basic_part_result w self io io' []). now rewrite extend_nil.
Qed.

(** When [generate_basic_part] raises, [generate_report] raises the same and
    the instance is as before. When it returns but the report file cannot be
    opened, the lines are already in the buffer although nothing was written,
    so the next successful call writes them followed by its own. *)
Theorem generate_report_failure_buffer
        (w : World Model Matrix Target Explainer Attribution)
        (self : ValuePredictReport) (io : IO Matrix Attribution) :
  (forall e,
      fst (generate_basic_part w (self, io)) = Err e ->
      fst (generate_report w (self, io)) = Err e
      /\ fst (snd (generate_report w (self, io))) = self)
  /\ (forall basic e,
         fst (generate_basic_part w (self, io)) = Ok basic ->
         writable w (vp_report_path self) = Err e ->
         fst (generate_report w (self, io)) = Err e
         /\ vp_report_lines (fst (snd (generate_report w (self, io))))
            = (vp_report_lines self ++ fst basic)%list
         /\ forall (w2 : World Model Matrix Target Explainer Attribution)
                   (io2 : IO Matrix Attribution) s2,
             generate_report w2 (fst (snd (generate_report w (self, io))), io2)
             = (Ok tt, s2) ->
             files (snd s2) !! vp_report_path self
             = Some (TextFile
                       (join newline
                          (vp_report_lines self ++ fst basic
                           ++ generated_lines w2 self)%list))).
Proof.
  pose proof (generate_basic_part_result_io w self io
                (log_event (Printed "Generating Report...") io)) as Hres.
  pose proof (generate_basic_part_self w self
                (log_event (Printed "Generating Report...") io)) as Hself.
  rewrite generate_report_unfold.
  destruct (generate_basic_part w (self, log_event _ io)) as [r [self1 io1]].
  cbn in Hres, Hself. subst self1. rewrite <- Hres.
  split.
  - intros e ->. now split.
  - intros basic e -> Hlocked. cbn. rewrite Hlocked. cbn.
    split; [reflexivity |]. split; [reflexivity |].
    intros w2 io2 s2 Hnext. apply generate_report_ok in Hnext as (_ & Hfile & _).
    cbn in Hfile. rewrite Hfile, generated_lines_extend. now rewrite <- app_assoc.
Qed.

(** [save_report] writes the buffer as it is: right after a successful
    [generate_report] it changes neither the instance nor any file, and on a
    new instance it writes an empty report. *)
Theorem save_report_rewrites (w w' : World Model Matrix Target Explainer Attribution)
        (self : ValuePredictReport) (io : IO Matrix Attribution) :
  writable w' (vp_report_path self) = Ok tt ->
  (forall s1,
      generate_report w (self, io) = (Ok tt, s1) ->
      fst (save_report w' s1) = Ok tt
      /\ fst (snd (save_report w' s1)) = fst s1
      /\ files (snd (snd (save_report w' s1))) = files (snd s1))
  /\ (vp_report_lines self = [] ->
      fst (save_report w' (self, io)) = Ok tt
      /\ fst (snd (save_report w' (self, io))) = self
      /\ files (snd (snd (save_report w' (self, io)))) !! vp_report_path self
         = Some (TextFile "")).
Proof.
  intros Hwritable. split.
  - intros s1 Hrun. rewrite generate_report_unfold in Hrun.
    pose proof (generate_basic_part_self w self
                  (log_event (Printed "Generating Report...") io)) as Hself.
    destruct (generate_basic_part w (self, log_event _ io)) as [[basic | e] [self1 io1]];
      cbn in Hself, Hrun; [| discriminate].
    subst self1. destruct (writable w (vp_report_path self)); [| discriminate].
    injection Hrun as <-.
    unfold save_report, get_self, on_io, open_write, open_w, f_write, truncate,
      bind, call, modify, ret. cbn.
    rewrite Hwritable. cbn. repeat split. now rewrite !insert_insert_eq.
  - intros Hfresh.
    unfold save_report, get_self, on_io, open_write, open_w, f_write, truncate,
      bind, call, modify, ret. cbn.
    rewrite Hwritable. cbn. rewrite Hfresh. repeat split. apply lookup_insert_eq.
Qed.

(** The two image links of a returned report name the two files the run has
    just written. *)
Theorem report_links_point_at_images
        (w : World Model Matrix Target Explainer Attribution)
        (self : ValuePredictReport) (io : IO Matrix Attribution)
        (basic : list string * list string) (s' : ValuePredictReport * IO Matrix Attribution) :
  generate_basic_part w (self, io) = (Ok basic, s') ->
  nth_error (fst basic) 23 = Some ("![summary](" ++ summary_plot_path self ++ ")")
  /\ nth_error (fst basic) 26 = Some ("![bar](" ++ bar_plot_path self ++ ")")
  /\ (exists d, files (snd s') !! summary_plot_path self = Some (PngFile d))
  /\ (exists d, files (snd s') !! bar_plot_path self = Some (PngFile d)).
Proof.
  intros Hrun. apply generate_basic_part_ok in Hrun
    as (predictor & ldf & fdf & used & X & y & names & m & model & expl & values
        & top30 & board & _ & _ & _ & _ & _ & _ & _ & _ & _ & _ & _ & _ & _
        & Hlines & ->).
  rewrite Hlines. cbn [snd files].
  split; [reflexivity |]. split; [reflexivity |]. split.
  - eexists. rewrite lookup_insert_ne by (apply not_eq_sym, plot_paths_differ).
    apply lookup_insert_eq.
  - eexists. apply lookup_insert_eq.
Qed.

(** A returned report has 57 entries whatever the artifacts are, and its
    count line and its last code block show the first min(30, F) labels of the
    importance table the engine returned. *)
Theorem report_counts (w : World Model Matrix Target Explainer Attribution)
        (self : ValuePredictReport) (io : IO Matrix Attribution)
        (basic : list string * list string) (s' : ValuePredictReport * IO Matrix Attribution) :
  generate_basic_part w (self, io) = (Ok basic, s') ->
  length (fst basic) = 57
  /\ exists predictor feature_importance_df,
      fit w (label self) (model_path self) (eval_metric self) (train_data self)
      = Ok predictor
      /\ feature_importance predictor (train_data self) = Ok feature_importance_df
      /\ snd basic = firstn 30 (index_tolist feature_importance_df)
      /\ length (snd basic) = Nat.min 30 (len feature_importance_df)
      /\ nth_error (fst basic) 52
         = Some ("- 推薦特徵數量：" ++ str (Nat.min 30 (len feature_importance_df)))
      /\ nth_error (fst basic) 55
         = Some ("  " ++ join ", " (firstn 30 (index_tolist feature_importance_df))).
Proof.
  intros Hrun. apply generate_basic_part_ok in Hrun
    as (predictor & ldf & fdf & used & X & y & names & m & model & expl & values
        & top30 & board & Hfit & _ & Himp & _ & _ & _ & _ & _ & _ & _ & _ & _ & Hrec
        & Hlines & _).
  assert (Hfirst : snd basic = firstn 30 (index_tolist fdf)).
  { rewrite Hrec. unfold recommend_features.
    change default_top_k with (Z.of_nat 30). apply index_tolist_head. }
  assert (Hlen : length (snd basic) = Nat.min 30 (len fdf))
    by (rewrite Hfirst, length_firstn; now rewrite index_tolist_length).
  rewrite Hlines. split; [reflexivity |].
  exists predictor, fdf.
  split; [exact Hfit |]. split; [exact Himp |]. split; [exact Hfirst |].
  split; [exact Hlen |]. cbn [nth_error]. split.
  - change (Some ("- 推薦特徵數量：" ++ str (length (snd basic)))
            = Some ("- 推薦特徵數量：" ++ str (Nat.min 30 (len fdf)))).
    now rewrite Hlen.
  - change (Some ("  " ++ join ", " (snd basic))
            = Some ("  " ++ join ", " (firstn 30 (index_tolist fdf)))).
    now rewrite Hfirst.
Qed.

(** The head of a report shows the label given to the constructor, the number
    of rows of the file read, and the number of its columns that are neither
    identifier nor label, after any history of calls. *)
Theorem report_statistics (w0 w : World Model Matrix Target Explainer Attribution)
        (path id label folder : string) (io0 io1 io_h io : IO Matrix Attribution)
        (table : DataFrame) (self0 : ValuePredictReport)
        (history : list (World Model Matrix Target Explainer Attribution * Call))
        (basic : list string * list string) (s' : ValuePredictReport * IO Matrix Attribution) :
  read_csv w0 path = Ok table ->
  __init__ w0 path id label folder io0 = (Ok self0, io1) ->
  generate_basic_part w (fst (run_calls history (self0, io_h)), io) = (Ok basic, s') ->
  nth_error (fst basic) 3 = Some ("- 預測欄位：**" ++ label ++ "**")
  /\ nth_error (fst basic) 4 = Some ("- 訓練資料筆數：" ++ str (len table))
  /\ nth_error (fst basic) 5
     = Some ("- 原始特徵數量：" ++ str (length (Spec.FeatureSet id label table))).
Proof.
  intros Hread Hinit Hrun.
  destruct (run_calls_extends history self0 io_h) as (more & Hext).
  rewrite Hext in Hrun. clear Hext.
  rewrite (init_result w0 path id label folder io0 table Hread) in Hinit.
  destruct (list_in id (columns table)); [| discriminate].
  injection Hinit as <- _.
  apply generate_basic_part_ok in Hrun
    as (predictor & ldf & fdf & used & X & y & names & m & model & expl & values
        & top30 & board & _ & _ & _ & _ & _ & _ & _ & _ & _ & _ & _ & _ & _
        & Hlines & _).
  rewrite Hlines. cbn [nth_error].
  unfold report_lines_literal, append, len. cbn.
  rewrite length_map. repeat split.
Qed.

End Further.

(** ** The further properties on the small run *)

Lemma recommend_features_edge_counts_witness :
  recommend_features Example.importance_table 5 = index_tolist Example.importance_table
  /\ recommend_features Example.importance_table (-1)
     = firstn (len Example.importance_table - Z.to_nat (- (-1)))
              (index_tolist Example.importance_table)
  /\ recommend_features Example.importance_table (-3) = [].
Proof.
  destruct (recommend_features_edge_counts Example.importance_table)
    as (_ & Hall & Hneg & Hnone).
  split; [apply Hall; unfold len; cbn; lia |].
  split; [apply Hneg; lia | apply Hnone; [unfold len; cbn; lia | lia]].
Defined.

Lemma recommend_features_prefix_witness :
  recommend_features Example.importance_table 1
    `prefix_of` recommend_features Example.importance_table 2
  /\ recommend_features (head 2 Example.importance_table) 1
     = recommend_features Example.importance_table 1.
Proof.
  destruct recommend_features_prefix as (_ & Hgrow & Hcut).
  split; [apply Hgrow; lia | apply Hcut; lia].
Defined.

Lemma unused_features_keep_order_witness :
  List.NoDup ["age"; "signup"]
  /\ List.NoDup (unused_of ["age"; "signup"] ["age"]).
Proof.
  assert (H : List.NoDup ["age"; "signup"]).
  { constructor; [| constructor; [| constructor]]; cbn; intros Hin.
    - destruct Hin as [Heq | []]; discriminate Heq.
    - exact Hin. }
  split; [exact H |].
  destruct (unused_features_keep_order ["age"; "signup"] ["age"])
    as (_ & _ & _ & Hnodup & _).
  exact (Hnodup H).
Defined.


Lemma output_paths_distinct_witness :
  __init__ (Example.world Example.sub_models) "train.csv" "id" "y" "out" Example.io0
  = (Ok Example.instance, Example.io0)
  /\ List.NoDup [model_path Example.instance; vp_report_path Example.instance;
                 summary_plot_path Example.instance; bar_plot_path Example.instance].
Proof.
  assert (H : __init__ (Example.world Example.sub_models) "train.csv" "id" "y" "out"
                       Example.io0
              = (Ok Example.instance, Example.io0))
    by (vm_compute; reflexivity).
  split; [exact H |].
  exact (proj1 (output_paths_distinct (Example.world Example.sub_models)
                  "train.csv" "id" "y" "out" Example.io0 Example.io0
                  Example.instance H)).
Defined.


Lemma generate_report_failure_buffer_witness :
  fst (generate_report (Example.world ["CatBoost"]) (Example.instance, Example.io0))
  = Err StopIteration
  /\ fst (generate_report Faults.world_report_locked (Example.instance, Example.io0))
     = Err (OSError "out/vp_report.md")
  /\ vp_report_lines
       (fst (snd (generate_report Faults.world_report_locked
                                  (Example.instance, Example.io0))))
     = (vp_report_lines Example.instance ++ fst Example.basic)%list.
Proof.
  assert (H1 : fst (generate_basic_part (Example.world ["CatBoost"])
                                        (Example.instance, Example.io0))
               = Err StopIteration)
    by (vm_compute; reflexivity).
  assert (H2 : fst (generate_basic_part Faults.world_report_locked
                                        (Example.instance, Example.io0))
               = Ok Example.basic)
    by (vm_compute; reflexivity).
  assert (H3 : writable Faults.world_report_locked (vp_report_path Example.instance)
               = Err (OSError "out/vp_report.md"))
    by reflexivity.
  split.
  - exact (proj1 (proj1 (generate_report_failure_buffer (Example.world ["CatBoost"])
                           Example.instance Example.io0) _ H1)).
  - destruct (proj2 (generate_report_failure_buffer Faults.world_report_locked
                       Example.instance Example.io0) _ _ H2 H3)
      as (Herr & Hlines & _).
    split; [exact Herr | exact Hlines].
Defined.

Lemma save_report_rewrites_witness :
  writable (Example.world Example.sub_models) (vp_report_path Example.instance) = Ok tt
  /\ files (snd (snd (save_report
                        (Example.world Example.sub_models)
                        (snd (generate_report (Example.world Example.sub_models)
                                              (Example.instance, Example.io0))))))
     = files (snd (snd (generate_report (Example.world Example.sub_models)
                                        (Example.instance, Example.io0))))
  /\ files (snd (snd (save_report (Example.world Example.sub_models)
                                  (Example.instance, Example.io0))))
       !! vp_report_path Example.instance
     = Some (TextFile "").
Proof.
  assert (H1 : writable (Example.world Example.sub_models)
                        (vp_report_path Example.instance) = Ok tt)
    by reflexivity.
  assert (H2 : generate_report (Example.world Example.sub_models)
                               (Example.instance, Example.io0)
               = (Ok tt, snd (generate_report (Example.world Example.sub_models)
                                              (Example.instance, Example.io0))))
    by (vm_compute; reflexivity).
  split; [exact H1 |].
  destruct (save_report_rewrites (Example.world Example.sub_models)
              (Example.world Example.sub_models) Example.instance Example.io0 H1)
    as (Hafter & Hnew).
  split.
  - exact (proj2 (proj2 (Hafter _ H2))).
  - exact (proj2 (proj2 (Hnew eq_refl))).
Defined.

Lemma report_links_point_at_images_witness :
  Example.run_basic = (Ok Example.basic, snd Example.run_basic)
  /\ nth_error (fst Example.basic) 23
     = Some ("![summary](" ++ summary_plot_path Example.instance ++ ")")
  /\ exists d,
      files (snd (snd Example.run_basic)) !! summary_plot_path Example.instance
      = Some (PngFile d).
Proof.
  assert (H : generate_basic_part (Example.world Example.sub_models)
                                  (Example.instance, Example.io0)
              = (Ok Example.basic, snd Example.run_basic))
    by (vm_compute; reflexivity).
  split; [exact H |].
  destruct (report_links_point_at_images (Example.world Example.sub_models)
              Example.instance Example.io0 _ _ H)
    as (Hlink & _ & Hfile & _).
  split; [exact Hlink | exact Hfile].
Defined.

Lemma report_counts_witness :
  Example.run_basic = (Ok Example.basic, snd Example.run_basic)
  /\ length (fst Example.basic) = 57.
Proof.
  assert (H : generate_basic_part (Example.world Example.sub_models)
                                  (Example.instance, Example.io0)
              = (Ok Example.basic, snd Example.run_basic))
    by (vm_compute; reflexivity).
  split; [exact H |].
  exact (proj1 (report_counts (Example.world Example.sub_models)
                  Example.instance Example.io0 _ _ H)).
Defined.

Lemma report_statistics_witness :
  read_csv (Example.world Example.sub_models) "train.csv" = Ok Example.table
  /\ __init__ (Example.world Example.sub_models) "train.csv" "id" "y" "out" Example.io0
     = (Ok Example.instance, Example.io0)
  /\ nth_error (fst Example.basic) 4
     = Some ("- 訓練資料筆數：" ++ str (len Example.table)).
Proof.
  assert (H1 : read_csv (Example.world Example.sub_models) "train.csv" = Ok Example.table)
    by reflexivity.
  assert (H2 : __init__ (Example.world Example.sub_models) "train.csv" "id" "y" "out"
                        Example.io0
               = (Ok Example.instance, Example.io0))
    by (vm_compute; reflexivity).
  assert (H3 : generate_basic_part (Example.world Example.sub_models)
                                   (Example.instance, Example.io0)
               = (Ok Example.basic, snd Example.run_basic))
    by (vm_compute; reflexivity).
  split; [exact H1 |]. split; [exact H2 |].
  destruct (report_statistics
              (Example.world Example.sub_models) (Example.world Example.sub_models)
              "train.csv" "id" "y" "out" Example.io0 Example.io0 Example.io0 Example.io0
              Example.table Example.instance [] _ _ H1 H2 H3)
    as (_ & Hrows & _).
  exact Hrows.
Defined.
